(** * Verification of the Dgraph adapter ([packages/dgraph/src/index.ts])

    The adapter maps the fixed authentication data model (User, Account,
    Session, VerificationToken) onto a GraphQL backend.  Every operation of
    [DgraphAdapter] is an [async] function that builds a document from a
    template literal, sends it with [c.run] and post-processes the answer.

    The embedding below keeps that structure:
    - JavaScript values are an inductive type [value]; objects are finite
      maps from property names to values;
    - an [async] body is a program of the free monad [prog] over the single
      effect [c.run(query, variables)]; a synchronous [throw] (a [TypeError]
      or a transport failure) is the rejection of the returned promise;
    - a document is a [template]: the literal chunks of the template literal
      and the [${fragments.X}] holes between them. *)

From stdpp Require Import gmap strings list fin_maps pretty.

#[local] Set Warnings "-register-all".
#[local] Open Scope string_scope.

(** ** JavaScript values *)

(** JSON data as the adapter sees it, plus [undefined] and [Date] objects
    (the caller's date representation).  Numbers are the integers: the
    adapter only ever tests a number for truthiness. *)
Inductive value : Type :=
| VUndefined
| VNull
| VBool (b : bool)
| VNum (n : Z)
| VStr (s : string)
| VDate (iso : string)
| VArr (xs : list value)
| VObj (fields : gmap string value).

(** What a rejected promise carries: a [TypeError] raised by the adapter's
    own code, or the error the transport raised ([DgraphClientError]). *)
Inductive exn : Type :=
| TypeError
| DgraphClientError (errors : value).

(** [x == null]: the test behind [?.] and [??]. *)
Definition nullish (v : value) : bool :=
  match v with
  | VUndefined | VNull => true
  | _ => false
  end.

(** [!!x]. *)
Definition truthy (v : value) : bool :=
  match v with
  | VUndefined | VNull => false
  | VBool b => b
  | VNum n => negb (n =? 0)%Z
  | VStr s => negb (String.eqb s "")
  | VDate _ | VArr _ | VObj _ => true
  end.

(** The one-character strings of a string, in order. *)
Fixpoint chars (s : string) : list value :=
  match s with
  | EmptyString => []
  | String c s' => VStr (String c EmptyString) :: chars s'
  end.

(** Elements under their decimal index, as the properties of an array or a
    string have it. *)
Definition indexed (xs : list value) : gmap string value :=
  list_to_map (imap (λ i x, (pretty i, x)) xs).

(** The own enumerable properties of a value: what [{...v}], a rest pattern
    and [for (key in v)] see. *)
Definition own_props (v : value) : gmap string value :=
  match v with
  | VObj fields => fields
  | VArr xs => indexed xs
  | VStr s => indexed (chars s)
  | _ => ∅
  end.

(** ** Programs: the body of an [async] function *)

(** [Run query variables k] is [k (await c.run(query, variables))]; the
    source has no [try]/[catch], so a rejection of [c.run] ends the
    program and [k] only ever sees a successful answer. *)
Inductive prog (A : Type) : Type :=
| Ret (a : A)
| Throw (e : exn)
| Run (query : string) (variables : value) (k : value → prog A).

Arguments Ret {A} a.
Arguments Throw {A} e.
Arguments Run {A} query variables k.

Fixpoint prog_bind {A B : Type} (f : A → prog B) (p : prog A) : prog B :=
  match p with
  | Ret a => f a
  | Throw e => Throw e
  | Run q v k => Run q v (λ r, prog_bind f (k r))
  end.

#[export] Instance prog_ret : MRet prog := @Ret.
#[export] Instance prog_mbind : MBind prog := @prog_bind.

(** [await c.run(query, variables)]. *)
Definition run (query : string) (variables : value) : prog value :=
  Run query variables Ret.

(** ** Property access and destructuring *)

(** [v.key] (and [v[0]], which is [v."0"]).  Reading a property of
    [undefined] or [null] throws.  Besides own properties an array or a
    string has [length] and its prototype's methods, which the adapter reads
    only through [map], modelled by [map_id] below. *)
Definition get_prop (v : value) (key : string) : prog value :=
  if nullish v then Throw TypeError
  else Ret (default VUndefined (own_props v !! key)).

(** [v?.key]: [undefined] on [undefined] and [null], and never throws. *)
Definition get_prop_opt (v : value) (key : string) : value :=
  default VUndefined (own_props v !! key).

(** [const [x] = v]: the first value the iterator of [v] yields; only arrays
    and strings are iterable. *)
Definition destructure_first (v : value) : prog value :=
  match v with
  | VArr xs => Ret (default VUndefined (head xs))
  | VStr s => Ret (default VUndefined (head (chars s)))
  | _ => Throw TypeError
  end.

(** [const { key, ...rest } = v]. *)
Definition destructure_rest (key : string) (v : value)
  : prog (value * gmap string value) :=
  if nullish v then Throw TypeError
  else Ret (default VUndefined (own_props v !! key), delete key (own_props v)).

(** [xs.map((x) => x.id)] on the elements of an array. *)
Fixpoint map_id_list (xs : list value) : prog (list value) :=
  match xs with
  | [] => Ret []
  | x :: xs' => i ← get_prop x "id"; ids ← map_id_list xs'; Ret (i :: ids)
  end.

(** [v.map((x) => x.id)]: only an array has a [map] method. *)
Definition map_id (v : value) : prog value :=
  match v with
  | VArr xs => ids ← map_id_list xs; Ret (VArr ids)
  | _ => Throw TypeError
  end.

(** ** Documents *)

(** The four named fragments ([fragments.User], ...). *)
Inductive fragment_name : Type := User | Account | Session | VerificationToken.

Definition Fragments : Type := fragment_name → string.

(** A template literal: literal chunks and [${fragments.X}] holes. *)
Inductive piece : Type :=
| Lit (text : string)
| Frag (name : fragment_name).

Definition template : Type := list piece.

(** The two-character default value written between double quotes in the
    documents ([String = ...]). *)
Definition EmptyStringLiteral : piece :=
  Lit (String (Ascii.ascii_of_nat 34) (String (Ascii.ascii_of_nat 34) EmptyString)).

Definition piece_text (fs : Fragments) (p : piece) : string :=
  match p with
  | Lit text => text
  | Frag name => fs name
  end.

(** The string a template literal evaluates to. *)
Definition render (fs : Fragments) (t : template) : string :=
  foldr (λ p acc, piece_text fs p +:+ acc) "" t.

Definition createUser_doc : template :=
  [ Lit "
          mutation ($input: [AddUserInput!]!) {
            addUser(input: $input) {
              user {
                ...UserFragment
              }
            }
          }
          ";
    Frag User;
    Lit "
        " ].

Definition getUser_doc : template :=
  [ Lit "
          query ($id: ID!) {
            getUser(id: $id) {
              ...UserFragment
            }
          }
          ";
    Frag User;
    Lit "
        " ].

Definition getUserByEmail_doc : template :=
  [ Lit "
          query ($email: String = ";
    EmptyStringLiteral;
    Lit ") {
            queryUser(filter: { email: { eq: $email } }) {
              ...UserFragment
            }
          }
          ";
    Frag User;
    Lit "
        " ].

Definition getUserByAccount_doc : template :=
  [ Lit "
          query ($providerAccountId: String = ";
    EmptyStringLiteral;
    Lit ", $provider: String = ";
    EmptyStringLiteral;
    Lit ") {
            queryAccount(
              filter: {
                and: {
                  providerAccountId: { eq: $providerAccountId }
                  provider: { eq: $provider }
                }
              }
            ) {
              user {
                ...UserFragment
              }
              id
            }
          }
          ";
    Frag User;
    Lit "
        " ].

Definition updateUser_doc : template :=
  [ Lit "
          mutation ($id: [ID!] = ";
    EmptyStringLiteral;
    Lit ", $input: UserPatch) {
            updateUser(input: { filter: { id: $id }, set: $input }) {
              user {
                ...UserFragment
              }
            }
          }
          ";
    Frag User;
    Lit "
        " ].

Definition deleteUser_doc : template :=
  [ Lit "
          mutation ($id: [ID!] = ";
    EmptyStringLiteral;
    Lit ") {
            deleteUser(filter: { id: $id }) {
              numUids
              user {
                accounts {
                  id
                }
                sessions {
                  id
                }
              }
            }
          }
        " ].

Definition deleteUser_cascade_doc : template :=
  [ Lit "
          mutation ($accounts: [ID!], $sessions: [ID!]) {
            deleteAccount(filter: { id: $accounts }) {
              numUids
            }
            deleteSession(filter: { id: $sessions }) {
              numUids
            }
          }
        " ].

Definition linkAccount_doc : template :=
  [ Lit "
          mutation ($input: [AddAccountInput!]!) {
            addAccount(input: $input) {
              account {
                ...AccountFragment
              }
            }
          }
          ";
    Frag Account;
    Lit "
        " ].

Definition unlinkAccount_doc : template :=
  [ Lit "
          mutation ($providerAccountId: String = ";
    EmptyStringLiteral;
    Lit ", $provider: String = ";
    EmptyStringLiteral;
    Lit ") {
            deleteAccount(
              filter: {
                and: {
                  providerAccountId: { eq: $providerAccountId }
                  provider: { eq: $provider }
                }
              }
            ) {
              numUids
            }
          }
        " ].

Definition getSessionAndUser_doc : template :=
  [ Lit "
          query ($sessionToken: String = ";
    EmptyStringLiteral;
    Lit ") {
            querySession(filter: { sessionToken: { eq: $sessionToken } }) {
              ...SessionFragment
              user {
                ...UserFragment
              }
            }
          }
          ";
    Frag User;
    Lit "
          ";
    Frag Session;
    Lit "
        " ].

Definition createSession_doc : template :=
  [ Lit "
          mutation ($input: [AddSessionInput!]!) {
            addSession(input: $input) {
              session {
                ...SessionFragment
              }
            }
          }
          ";
    Frag Session;
    Lit "
        " ].

Definition updateSession_doc : template :=
  [ Lit "
          mutation ($input: SessionPatch = {}, $sessionToken: String) {
            updateSession(
              input: {
                filter: { sessionToken: { eq: $sessionToken } }
                set: $input
              }
            ) {
              session {
                ...SessionFragment
                user {
                  id
                }
              }
            }
          }
          ";
    Frag Session;
    Lit "
        " ].

Definition deleteSession_doc : template :=
  [ Lit "
          mutation ($sessionToken: String = ";
    EmptyStringLiteral;
    Lit ") {
            deleteSession(filter: { sessionToken: { eq: $sessionToken } }) {
              numUids
            }
          }
        " ].

Definition createVerificationToken_doc : template :=
  [ Lit "
          mutation ($input: [AddVerificationTokenInput!]!) {
            addVerificationToken(input: $input) {
              numUids
            }
          }
        " ].

Definition useVerificationToken_doc : template :=
  [ Lit "
          mutation ($token: String = ";
    EmptyStringLiteral;
    Lit ", $identifier: String = ";
    EmptyStringLiteral;
    Lit ") {
            deleteVerificationToken(
              filter: {
                and: { token: { eq: $token }, identifier: { eq: $identifier } }
              }
            ) {
              verificationToken {
                ...VerificationTokenFragment
              }
            }
          }
          ";
    Frag VerificationToken;
    Lit "
        " ].

(** [needle] occurs in [hay]. *)
Fixpoint mentions (needle hay : string) : bool :=
  if String.prefix needle hay then true
  else match hay with
       | EmptyString => false
       | String _ hay' => mentions needle hay'
       end.

(** ** Construction-time configuration *)

(** The keys of [Adapter]. *)
Module Op.
Inductive name : Type :=
| createUser | getUser | getUserByEmail | getUserByAccount | updateUser
| deleteUser | linkAccount | unlinkAccount | getSessionAndUser
| createSession | updateSession | deleteSession
| createVerificationToken | useVerificationToken.
End Op.

(** [type Transformer<I = any, R = any> = (x: I) => R]: a hook is modelled
    as a function of its argument: it returns normally, possibly
    [undefined], and leaves the object it is given as it was.  A hook that
    throws or that modifies its argument is outside the model; the
    statements below that would not hold for such a hook say so. *)
Definition Transformer : Type := value → value.

(** [interface DgraphAdapterOptions]; an absent key is [None]. *)
Module DgraphAdapterOptions.
Record t : Type := {
  fragments : option (fragment_name → option string);
  transformers : option (Op.name → option Transformer)
}.
End DgraphAdapterOptions.

(** What the closure returned by [DgraphAdapter(client, options)] captures
    besides the client: its [options] argument and the two imports that are
    not among the sources, taken as parameters: the default fragments
    ([./graphql/fragments]) and the date test of the formatter
    ([./utils]). *)
Class Env : Type := {
  isDate : string → bool;
  defaultFragments : Fragments;
  options : option DgraphAdapterOptions.t
}.

Section Adapter.
Context {env : Env}.

(** Modelled from the spec: [format.from] of [./utils], which is not among
    the sources.  The spec's contract (4.1): unknown fields pass through
    unchanged, date-like values become the caller's date representation,
    [null]/absent stays [null], formatting is idempotent and pure.  A field
    is date-like when it is a string accepted by [isDate]. *)
Definition format_field (x : value) : value :=
  match x with
  | VStr s => if isDate s then VDate s else x
  | _ => x
  end.

(** Modelled from the spec: [format.from] of [./utils] (see [format_field]).
    A record is formatted field by field; [null] and [undefined] give
    [null]; the spec says nothing of other inputs, which are returned as
    they are. *)
Definition format_from (object : value) : value :=
  match object with
  | VUndefined | VNull => VNull
  | VObj fields => VObj (format_field <$> fields)
  | other => other
  end.

(** [options?.transformers?.[func]]. *)
Definition transformer (func : Op.name) : option Transformer :=
  o ← options; ts ← DgraphAdapterOptions.transformers o; ts func.

(** [const change = (func, x) => options?.transformers?.[func]?.(x) ?? x]. *)
Definition change (func : Op.name) (x : value) : value :=
  match transformer func with
  | Some f => let y := f x in if nullish y then x else y
  | None => x
  end.

(** [const fragments = { ...defaultFragments, ...options?.fragments }]. *)
Definition fragments : Fragments :=
  λ name,
    default (defaultFragments name)
            (o ← options; fs ← DgraphAdapterOptions.fragments o; fs name).

(** ** The operations *)

Definition createUser (input : value) : prog value :=
  result ← run (render fragments createUser_doc)
               (VObj {[ "input" := change Op.createUser input ]});
  first ← (if nullish result then Ret VUndefined
           else user ← get_prop result "user"; get_prop user "0");
  Ret (format_from first).

Definition getUser (id : value) : prog value :=
  result ← run (render fragments getUser_doc)
               (VObj {[ "id" := change Op.getUser id ]});
  Ret (format_from result).

Definition getUserByEmail (email : value) : prog value :=
  result ← run (render fragments getUserByEmail_doc)
               (VObj {[ "email" := change Op.getUserByEmail email ]});
  user ← destructure_first result;
  Ret (format_from user).

Definition getUserByAccount (provider_providerAccountId : value) : prog value :=
  result ← run (render fragments getUserByAccount_doc)
               (change Op.getUserByAccount provider_providerAccountId);
  account ← destructure_first result;
  Ret (format_from (get_prop_opt account "user")).

Definition updateUser (arg : value) : prog value :=
  '(id, input) ← destructure_rest "id" arg;
  result ← run (render fragments updateUser_doc)
               (change Op.updateUser
                       (VObj {[ "id" := id; "input" := VObj input ]}));
  user ← get_prop result "user";
  first ← get_prop user "0";
  Ret (format_from first).

Definition deleteUser (id : value) : prog value :=
  result ← run (render fragments deleteUser_doc)
               (VObj {[ "id" := change Op.deleteUser id ]});
  user ← get_prop result "user";
  first ← get_prop user "0";
  let deletedUser := format_from first in
  sessions ← get_prop deletedUser "sessions";
  session_ids ← map_id sessions;
  accounts ← get_prop deletedUser "accounts";
  account_ids ← map_id accounts;
  _ ← run (render fragments deleteUser_cascade_doc)
          (VObj {[ "sessions" := session_ids; "accounts" := account_ids ]});
  Ret deletedUser.

Definition linkAccount (data : value) : prog value :=
  '(userId, input) ← destructure_rest "userId" data;
  _ ← run (render fragments linkAccount_doc)
          (VObj {[ "input" :=
                     change Op.linkAccount
                            (VObj (<["user" := VObj {[ "id" := userId ]}]> input)) ]});
  Ret data.

Definition unlinkAccount (provider_providerAccountId : value) : prog value :=
  _ ← run (render fragments unlinkAccount_doc)
          (change Op.unlinkAccount provider_providerAccountId);
  Ret VUndefined.

Definition getSessionAndUser (sessionToken : value) : prog value :=
  result ← run (render fragments getSessionAndUser_doc)
               (VObj {[ "sessionToken" :=
                          change Op.getSessionAndUser sessionToken ]});
  sessionAndUser ← destructure_first result;
  if negb (truthy sessionAndUser) then Ret VNull
  else
    '(user, session) ← destructure_rest "user" sessionAndUser;
    let formatted_user := format_from user in
    let formatted_session := format_from (VObj session) in
    userId ← get_prop user "id";
    Ret (VObj {[ "user" := formatted_user;
                 "session" :=
                   VObj (<["userId" := userId]> (own_props formatted_session)) ]}).

Definition createSession (data : value) : prog value :=
  '(userId, input) ←
     destructure_rest "userId"
       (match transformer Op.createSession with
        | Some f => f data
        | None => data
        end);
  _ ← run (render fragments createSession_doc)
          (VObj {[ "input" :=
                     change Op.createSession
                            (VObj (<["user" := VObj {[ "id" := userId ]}]> input)) ]});
  Ret data.

Definition updateSession (arg : value) : prog value :=
  '(sessionToken, input) ← destructure_rest "sessionToken" arg;
  result ← run (render fragments updateSession_doc)
               (change Op.updateSession
                       (VObj {[ "sessionToken" := sessionToken;
                                "input" := VObj input ]}));
  sessions ← get_prop result "session";
  first ← get_prop sessions "0";
  let session := format_from first in
  if negb (truthy (get_prop_opt (get_prop_opt session "user") "id"))
  then Ret VNull
  else
    user ← get_prop session "user";
    userId ← get_prop user "id";
    Ret (VObj (<["userId" := userId]> (own_props session))).

Definition deleteSession (sessionToken : value) : prog value :=
  _ ← run (render fragments deleteSession_doc)
          (VObj {[ "sessionToken" := change Op.deleteSession sessionToken ]});
  Ret VUndefined.

Definition createVerificationToken (input : value) : prog value :=
  result ← run (render fragments createVerificationToken_doc)
               (VObj {[ "input" := change Op.createVerificationToken input ]});
  Ret (format_from result).

Definition useVerificationToken (params : value) : prog value :=
  result ← run (render fragments useVerificationToken_doc)
               (change Op.useVerificationToken params);
  tokens ← get_prop result "verificationToken";
  first ← get_prop tokens "0";
  Ret (format_from first).

(** The object [DgraphAdapter] returns, as a function of the key. *)
Definition DgraphAdapter (op : Op.name) : value → prog value :=
  match op with
  | Op.createUser => createUser
  | Op.getUser => getUser
  | Op.getUserByEmail => getUserByEmail
  | Op.getUserByAccount => getUserByAccount
  | Op.updateUser => updateUser
  | Op.deleteUser => deleteUser
  | Op.linkAccount => linkAccount
  | Op.unlinkAccount => unlinkAccount
  | Op.getSessionAndUser => getSessionAndUser
  | Op.createSession => createSession
  | Op.updateSession => updateSession
  | Op.deleteSession => deleteSession
  | Op.createVerificationToken => createVerificationToken
  | Op.useVerificationToken => useVerificationToken
  end.

End Adapter.

(** ** Running a program against a transport *)

(** One [c.run] call: the document and its variables. *)
Definition request : Type := string * value.

(** The client ([./client], not among the sources) at its interface: run a
    document with variables, return the parsed answer or raise; [S] is the
    state of the backend behind it. *)
Definition DgraphClient (S : Type) : Type :=
  S → string → value → (exn + value) * S.

(** How the promise of an operation settles. *)
Inductive outcome (A : Type) : Type :=
| Resolved (a : A)
| Rejected (e : exn).

Arguments Resolved {A} a.
Arguments Rejected {A} e.

(** [exec c p s]: how [p] settles against client [c] from backend state
    [s], the requests it sent in order, and the backend state it leaves. *)
Fixpoint exec {A S : Type} (c : DgraphClient S) (p : prog A) (s : S)
  : outcome A * list request * S :=
  match p with
  | Ret a => (Resolved a, [], s)
  | Throw e => (Rejected e, [], s)
  | Run query variables k =>
      match c s query variables with
      | (inl e, s') => (Rejected e, [(query, variables)], s')
      | (inr answer, s') =>
          let '(o, sent, s'') := exec c (k answer) s' in
          (o, (query, variables) :: sent, s'')
      end
  end.

(** ** Comparing the programs of two adapters *)

(** Two programs that differ at most in the fragment text spliced into the
    documents they send: the same templates, the same variables, and
    continuations that agree on every answer. *)
Inductive same_but_fragments {A : Type} (fs fs' : Fragments)
  : prog A → prog A → Prop :=
| sbf_ret (a : A) : same_but_fragments fs fs' (Ret a) (Ret a)
| sbf_throw (e : exn) : same_but_fragments fs fs' (Throw e) (Throw e)
| sbf_run (t : template) (variables : value) (k k' : value → prog A) :
    (∀ answer, same_but_fragments fs fs' (k answer) (k' answer)) →
    same_but_fragments fs fs' (Run (render fs t) variables k)
                              (Run (render fs' t) variables k').

(** The configuration [e] with [options.fragments] replaced by [overrides]:
    [DgraphAdapter(client, { ...options, fragments: overrides })]. *)
Definition with_fragments (e : Env)
    (overrides : option (fragment_name → option string)) : Env :=
  {| isDate := @isDate e;
     defaultFragments := @defaultFragments e;
     options :=
       Some {| DgraphAdapterOptions.fragments := overrides;
               DgraphAdapterOptions.transformers :=
                 o ← @options e; DgraphAdapterOptions.transformers o |} |}.

(** ** Sample configurations and backends *)

(** A date test that knows one date. *)
Definition sample_isDate (s : string) : bool :=
  String.eqb s "2030-01-01T00:00:00.000Z".

Definition sample_fragments : Fragments :=
  λ name,
    match name with
    | User => "fragment UserFragment on User { id email }"
    | Account => "fragment AccountFragment on Account { id provider }"
    | Session => "fragment SessionFragment on Session { id sessionToken expires }"
    | VerificationToken =>
        "fragment VerificationTokenFragment on VerificationToken { identifier token expires }"
    end.

(** [DgraphAdapter(client)]: no options. *)
Definition plain_env : Env :=
  {| isDate := sample_isDate;
     defaultFragments := sample_fragments;
     options := None |}.

(** [DgraphAdapter(client, { transformers: { createSession: f } })]. *)
Definition createSession_hook_env (f : Transformer) : Env :=
  {| isDate := sample_isDate;
     defaultFragments := sample_fragments;
     options :=
       Some {| DgraphAdapterOptions.fragments := None;
               DgraphAdapterOptions.transformers :=
                 Some (λ func,
                         match func with
                         | Op.createSession => Some f
                         | _ => None
                         end) |} |}.

(** An override of the [User] fragment alone. *)
Definition short_user_fragment : option (fragment_name → option string) :=
  Some (λ name,
          match name with
          | User => Some "fragment UserFragment on User { id }"
          | _ => None
          end).

(** A client that plays back a script: each call consumes the next answer,
    whatever the request. *)
Definition scripted : DgraphClient (list (exn + value)) :=
  λ script _ _,
    match script with
    | answer :: script' => (answer, script')
    | [] => (inl (DgraphClientError VNull), [])
    end.

(** A hook that rewrites a session input and declines ([undefined]) any
    payload that already carries a [user] relation. *)
Definition declining_hook : Transformer :=
  λ x,
    match own_props x !! "user" with
    | Some _ => VUndefined
    | None => VObj (<["expires" := VStr "never"]> (own_props x))
    end.

(** A hook that replaces the input by a record of another shape. *)
Definition reshaping_hook : Transformer :=
  λ _, VObj {[ "userId" := VStr "u2"; "token" := VStr "t2" ]}.

Definition same_string (a b : value) : bool :=
  match a, b with
  | VStr x, VStr y => String.eqb x y
  | _, _ => false
  end.

(** A backend that stores verification tokens and serves
    [deleteVerificationToken]: the records matching both [$identifier] and
    [$token] are removed from the store and returned. *)
Definition token_store : DgraphClient (list (gmap string value)) :=
  λ store query variables,
    if mentions "deleteVerificationToken(" query then
      let hit (t : gmap string value) :=
        same_string (default VUndefined (t !! "identifier"))
                    (get_prop_opt variables "identifier")
        && same_string (default VUndefined (t !! "token"))
                       (get_prop_opt variables "token") in
      (inr (VObj {[ "verificationToken" := VArr (VObj <$> filter hit store) ]}),
       filter (λ t, negb (hit t)) store)
    else (inl (DgraphClientError (VStr "unsupported")), store).

(** Sample data. *)

Definition sample_user : value :=
  VObj {[ "id" := VStr "u1"; "email" := VStr "ada@example.org";
          "emailVerified" := VStr "2030-01-01T00:00:00.000Z" ]}.

Definition other_user : value :=
  VObj {[ "id" := VStr "u7"; "email" := VStr "ada@example.org" ]}.

(** The input of the spec's [linkAccount] scenario. *)
Definition sample_account : gmap string value :=
  {[ "userId" := VStr "u1"; "provider" := VStr "github";
     "providerAccountId" := VStr "42"; "type" := VStr "oauth" ]}.

Definition sample_account_key : value :=
  VObj {[ "provider" := VStr "github"; "providerAccountId" := VStr "42" ]}.

Definition sample_session : value :=
  VObj {[ "sessionToken" := VStr "tok"; "userId" := VStr "u1";
          "expires" := VStr "2030-01-01T00:00:00.000Z" ]}.

(** The answer of the delete-user mutation for a user that owns two sessions
    and one account. *)
Definition owned_relations : gmap string value :=
  {[ "sessions" := VArr [VObj {[ "id" := VStr "s1" ]}; VObj {[ "id" := VStr "s2" ]}];
     "accounts" := VArr [VObj {[ "id" := VStr "a1" ]}] ]}.

Definition deleted_user_answer : value :=
  VObj {[ "numUids" := VNum 1; "user" := VArr [VObj owned_relations] ]}.

Definition sample_token : gmap string value :=
  {[ "identifier" := VStr "ada@example.org"; "token" := VStr "abc";
     "expires" := VStr "2030-01-01T00:00:00.000Z" ]}.

Definition sample_token_key : value :=
  VObj {[ "identifier" := VStr "ada@example.org"; "token" := VStr "abc" ]}.

(** An answer of the update-session mutation whose record joins user [u1],
    and one whose record joins no user. *)
Definition updated_session_answer : value :=
  VObj {[ "session" :=
            VArr [VObj {[ "sessionToken" := VStr "tok";
                          "user" := VObj {[ "id" := VStr "u1" ]} ]}] ]}.

Definition orphan_session_answer : value :=
  VObj {[ "session" :=
            VArr [VObj {[ "sessionToken" := VStr "tok"; "user" := VNull ]}] ]}.

Definition matched_orphan_session : value :=
  VArr [VObj {[ "sessionToken" := VStr "tok"; "user" := VNull ]}].

Definition transport_failure : exn := DgraphClientError (VStr "unavailable").

(** ** What an operation sends *)

#[export] Instance fragment_name_eq_dec : EqDecision fragment_name.
Proof. solve_decision. Defined.

#[export] Instance op_name_eq_dec : EqDecision Op.name.
Proof. solve_decision. Defined.

(** The fragments a template splices, in order. *)
Definition holes (t : template) : list fragment_name :=
  omap (λ p, match p with Frag name => Some name | Lit _ => None end) t.

(** The text of a template outside its holes. *)
Definition literal_text (t : template) : string := render (λ _, "") t.

(** The spread by which a document refers to a fragment
    ([...UserFragment] for [fragments.User]). *)
Definition spread (name : fragment_name) : string :=
  match name with
  | User => "...UserFragment"
  | Account => "...AccountFragment"
  | Session => "...SessionFragment"
  | VerificationToken => "...VerificationTokenFragment"
  end.

(** The template literals of each operation, in the order of its [c.run]
    calls. *)
Definition documents (op : Op.name) : list template :=
  match op with
  | Op.createUser => [createUser_doc]
  | Op.getUser => [getUser_doc]
  | Op.getUserByEmail => [getUserByEmail_doc]
  | Op.getUserByAccount => [getUserByAccount_doc]
  | Op.updateUser => [updateUser_doc]
  | Op.deleteUser => [deleteUser_doc; deleteUser_cascade_doc]
  | Op.linkAccount => [linkAccount_doc]
  | Op.unlinkAccount => [unlinkAccount_doc]
  | Op.getSessionAndUser => [getSessionAndUser_doc]
  | Op.createSession => [createSession_doc]
  | Op.updateSession => [updateSession_doc]
  | Op.deleteSession => [deleteSession_doc]
  | Op.createVerificationToken => [createVerificationToken_doc]
  | Op.useVerificationToken => [useVerificationToken_doc]
  end.

(** [follows queries p]: [p] sends [queries] in order, one after the other,
    before it returns; on the way it may stop with a [TypeError] of its
    own. *)
Inductive follows {A : Type} : list string → prog A → Prop :=
| follows_ret (a : A) : follows [] (Ret a)
| follows_throw (queries : list string) : follows queries (Throw TypeError)
| follows_run (query : string) (queries : list string) (variables : value)
    (k : value → prog A) :
    (∀ answer, follows queries (k answer)) →
    follows (query :: queries) (Run query variables k).

(** The configuration [e] with the hook of [func] replaced by [hook]:
    [{ ...options, transformers: { ...options?.transformers, [func]: hook } }]. *)
Definition with_transformer (e : Env) (func : Op.name)
    (hook : option Transformer) : Env :=
  {| isDate := @isDate e;
     defaultFragments := @defaultFragments e;
     options :=
       Some {| DgraphAdapterOptions.fragments :=
                 o ← @options e; DgraphAdapterOptions.fragments o;
               DgraphAdapterOptions.transformers :=
                 Some (λ name,
                         if decide (name = func) then hook
                         else @transformer e name) |} |}.

(** A client whose every request fails with the same error. *)
Definition unreachable (e : exn) : DgraphClient unit :=
  λ _ _ _, (inl e, tt).

(** More sample answers. *)

Definition created_user_answer : value :=
  VObj {[ "user" := VArr [sample_user] ]}.

Definition unknown_user_answer : value :=
  VObj {[ "numUids" := VNum 0; "user" := VArr [] ]}.

Definition sample_user_patch : gmap string value :=
  {[ "id" := VStr "u1"; "name" := VStr "Ada" ]}.

Definition joined_session_record : gmap string value :=
  {[ "sessionToken" := VStr "tok";
     "expires" := VStr "2030-01-01T00:00:00.000Z";
     "user" := sample_user ]}.

Definition owned_account : value :=
  VObj {[ "id" := VStr "a1"; "user" := sample_user ]}.

(** * Properties *)

(** ** Reading properties *)

Lemma get_prop_unfold (v : value) (key : string) :
  get_prop v key
  = if nullish v then Throw TypeError else Ret (get_prop_opt v key).
Proof. reflexivity. Qed.

Lemma get_prop_not_nullish (v : value) (key : string) :
  nullish v = false → get_prop v key = Ret (get_prop_opt v key).
Proof. intros Hv. unfold get_prop. by rewrite Hv. Qed.

Lemma get_prop_opt_nullish (v : value) (key : string) :
  nullish v = true → get_prop_opt v key = VUndefined.
Proof. by destruct v. Qed.

Lemma truthy_not_nullish (v : value) : truthy v = true → nullish v = false.
Proof. by destruct v. Qed.

Lemma get_prop_truthy (v : value) (key : string) :
  truthy (get_prop_opt v key) = true → get_prop v key = Ret (get_prop_opt v key).
Proof.
  intros Ht. apply get_prop_not_nullish.
  destruct (nullish v) eqn:Hv; [|done].
  by rewrite (get_prop_opt_nullish v key Hv) in Ht.
Qed.

Lemma get_prop_chain_truthy (v : value) (key key' : string) :
  truthy (get_prop_opt (get_prop_opt v key) key') = true →
  get_prop v key = Ret (get_prop_opt v key).
Proof.
  intros Ht. apply get_prop_not_nullish.
  destruct (nullish v) eqn:Hv; [|done].
  by rewrite (get_prop_opt_nullish v key Hv) in Ht.
Qed.

Lemma destructure_rest_not_nullish (key : string) (v : value) :
  nullish v = false →
  destructure_rest key v = Ret (get_prop_opt v key, delete key (own_props v)).
Proof. intros Hv. unfold destructure_rest. by rewrite Hv. Qed.

Lemma get_prop_defined (v x : value) (key : string) :
  get_prop_opt v key = x → x ≠ VUndefined → get_prop v key = Ret x.
Proof.
  intros <- Hx. apply get_prop_not_nullish.
  destruct (nullish v) eqn:Hv; [|done].
  by rewrite (get_prop_opt_nullish v key Hv) in Hx.
Qed.

Lemma indexed_head (x : value) (xs : list value) :
  indexed (x :: xs) !! "0" = Some x.
Proof. unfold indexed. cbn [imap list_to_map]. apply lookup_insert_eq. Qed.

Lemma get_prop_arr_first (xs : list value) :
  get_prop (VArr xs) "0" = Ret (default VUndefined (head xs)).
Proof.
  unfold get_prop. cbn [nullish own_props]. destruct xs as [|x xs]; [done|].
  by rewrite indexed_head.
Qed.

(** Unfold one operation and run it up to the next call of the client. *)
Ltac exec_simpl :=
  cbn [exec prog_bind mbind prog_mbind mret prog_ret fst snd].

Tactic Notation "exec_op" reference(op) := unfold op, run; exec_simpl.

(** Running [p] and then [f] on its value: the requests of [p], then those
    of [f]; a rejection of [p] is the rejection of the whole. *)
Lemma exec_bind {A B S : Type} (c : DgraphClient S)
    (p : prog A) (f : A → prog B) (s : S) :
  exec c (p ≫= f) s
  = match exec c p s with
    | (Resolved a, sent, s') =>
        let '(o, sent', s'') := exec c (f a) s' in (o, (sent ++ sent')%list, s'')
    | (Rejected e, sent, s') => (Rejected e, sent, s')
    end.
Proof.
  revert s. induction p as [a|e|query variables k IH]; intros s; exec_simpl.
  - by destruct (exec c (f a) s) as [[o sent] s'].
  - done.
  - destruct (c s query variables) as [[e|answer] s1]; [done|].
    rewrite IH. destruct (exec c (k answer) s1) as [[[a|e] sent] s2]; [|done].
    by destruct (exec c (f a) s2) as [[o sent'] s3].
Qed.

Section Claims.
Context {env : Env} {S : Type} (c : DgraphClient S).

(** ** Lookups *)

(** C7: [getUserByEmail] queries users by email equality and, when the
    backend answers with one or more records, resolves with the formatted
    first element of the list, whatever follows it. *)
Theorem getUserByEmail_takes_first
    (s s1 : S) (email first : value) (rest : list value) :
  c s (render fragments getUserByEmail_doc)
      (VObj {[ "email" := change Op.getUserByEmail email ]})
    = (inr (VArr (first :: rest)), s1) →
  mentions "queryUser(filter: { email: { eq: $email } })"
           (render fragments getUserByEmail_doc) = true
  ∧ exec c (getUserByEmail email) s
    = (Resolved (format_from first),
       [(render fragments getUserByEmail_doc,
         VObj {[ "email" := change Op.getUserByEmail email ]})],
       s1).
Proof.
  intros Hc. split; [reflexivity|].
  exec_op getUserByEmail. by rewrite Hc.
Qed.

(** C6: for [getUser], [getUserByAccount] and [getSessionAndUser] not-found
    is a resolved [null], not a rejection: when the backend reports no
    record ([null] for the get query, an empty list for the two filter
    queries) each of them resolves with [null]. *)
Theorem lookups_resolve_null_when_not_found
    (s1 s1' s2 s2' s3 s3' : S) (id key sessionToken answer : value) :
  nullish answer = true →
  c s1 (render fragments getUser_doc) (VObj {[ "id" := change Op.getUser id ]})
    = (inr answer, s1') →
  c s2 (render fragments getUserByAccount_doc) (change Op.getUserByAccount key)
    = (inr (VArr []), s2') →
  c s3 (render fragments getSessionAndUser_doc)
       (VObj {[ "sessionToken" := change Op.getSessionAndUser sessionToken ]})
    = (inr (VArr []), s3') →
  (exec c (getUser id) s1).1.1 = Resolved VNull
  ∧ (exec c (getUserByAccount key) s2).1.1 = Resolved VNull
  ∧ (exec c (getSessionAndUser sessionToken) s3).1.1 = Resolved VNull.
Proof.
  intros Hnull H1 H2 H3. repeat split.
  - exec_op getUser. rewrite H1. by destruct answer.
  - exec_op getUserByAccount. by rewrite H2.
  - exec_op getSessionAndUser. by rewrite H3.
Qed.

(** C9: when [getSessionAndUser]'s query answers with a matched session
    record whose joined [user] is [null] or absent, the operation throws
    ([user.id] is read unconditionally) instead of resolving with [null];
    it resolves with [null] exactly when the first element of the answer
    is no record at all. *)
Theorem getSessionAndUser_throws_without_user
    (s s1 : S) (sessionToken result first : value) :
  c s (render fragments getSessionAndUser_doc)
      (VObj {[ "sessionToken" := change Op.getSessionAndUser sessionToken ]})
    = (inr result, s1) →
  destructure_first result = Ret first →
  (truthy first = true → nullish (get_prop_opt first "user") = true →
   (exec c (getSessionAndUser sessionToken) s).1.1 = Rejected TypeError)
  ∧ ((exec c (getSessionAndUser sessionToken) s).1.1 = Resolved VNull
     ↔ truthy first = false).
Proof.
  intros Hc Hfirst. exec_op getSessionAndUser.
  rewrite Hc. exec_simpl. rewrite Hfirst. exec_simpl.
  destruct (truthy first) eqn:Ht; cbn [negb].
  - rewrite (destructure_rest_not_nullish _ _ (truthy_not_nullish _ Ht)).
    exec_simpl. unfold get_prop.
    destruct (nullish (get_prop_opt first "user")) eqn:Hu; exec_simpl.
    + split; [done|]. split; discriminate.
    + split; [discriminate|]. split; discriminate.
  - exec_simpl. split; [discriminate|done].
Qed.

(** ** Sessions *)

(** C4: [updateSession] never resolves with a partial session: whatever
    the backend answers, a resolved value is [null] or a record whose
    [userId] is set; and when the answer carries an updated record, the
    result is [null] if the record has no resolvable user id
    ([session?.user?.id] is falsy) and otherwise the formatted record with
    [userId] set to the joined user's id. *)
Theorem updateSession_null_or_userId (s : S) (arg : value) :
  (∀ v sent s', exec c (updateSession arg) s = (Resolved v, sent, s') →
     v = VNull
     ∨ ∃ fields userId,
         v = VObj fields ∧ fields !! "userId" = Some userId
         ∧ truthy userId = true)
  ∧ (∀ result s1,
       let variables :=
         change Op.updateSession
           (VObj {[ "sessionToken" := get_prop_opt arg "sessionToken";
                    "input" := VObj (delete "sessionToken" (own_props arg)) ]}) in
       let session :=
         format_from (get_prop_opt (get_prop_opt result "session") "0") in
       let userId := get_prop_opt (get_prop_opt session "user") "id" in
       nullish arg = false →
       c s (render fragments updateSession_doc) variables = (inr result, s1) →
       nullish result = false →
       nullish (get_prop_opt result "session") = false →
       exec c (updateSession arg) s
       = (Resolved (if truthy userId
                    then VObj (<["userId" := userId]> (own_props session))
                    else VNull),
          [(render fragments updateSession_doc, variables)], s1)).
Proof.
  split.
  - intros v sent s'. exec_op updateSession. unfold destructure_rest.
    destruct (nullish arg); exec_simpl; [done|].
    destruct (c s _ _) as [[e|result] s1]; [done|].
    exec_simpl. rewrite (get_prop_unfold result).
    destruct (nullish result); exec_simpl; [done|].
    rewrite (get_prop_unfold (get_prop_opt result "session")).
    destruct (nullish (get_prop_opt result "session")); exec_simpl; [done|].
    match goal with
    | |- context [format_from ?x] => generalize (format_from x); intros session
    end.
    destruct (truthy (get_prop_opt (get_prop_opt session "user") "id")) eqn:Ht;
      cbn [negb]; exec_simpl.
    + rewrite (get_prop_chain_truthy _ _ _ Ht). exec_simpl.
      rewrite (get_prop_truthy _ _ Ht). exec_simpl.
      intros [= <- _ _]. right. eexists _, _. split; [done|].
      split; [apply lookup_insert_eq|done].
    + intros [= <- _ _]. by left.
  - intros result s1 variables session userId Harg Hc Hres Hsess.
    exec_op updateSession. rewrite (destructure_rest_not_nullish _ _ Harg).
    exec_simpl. fold variables. rewrite Hc. exec_simpl.
    rewrite (get_prop_not_nullish _ _ Hres). exec_simpl.
    rewrite (get_prop_not_nullish _ _ Hsess). exec_simpl.
    fold session. fold userId.
    destruct (truthy userId) eqn:Ht; cbn [negb]; exec_simpl; [|done].
    rewrite (get_prop_chain_truthy _ _ _ Ht). exec_simpl.
    by rewrite (get_prop_truthy _ _ Ht).
Qed.

(** C3 (amended): [createSession] resolves with its argument as it is
    ([return data]), with or without a [createSession] transformer: the
    output of a transformer (a function that returns normally and leaves
    its argument unmodified) does not determine the returned value.  With
    no transformer configured, the payload sent is the input without
    [userId] and with the relation [{user: {id: userId}}] derived from the
    input's [userId].  With one configured, [userId] and the remaining
    fields are taken from the transformer's output on the input, the
    relation is injected into that record, and what is sent is [change] of
    it: the transformer's output on it, or the record itself when that
    output is [null] or [undefined]. *)
Theorem createSession_returns_input (s : S) (data : value) :
  (∀ v sent s', exec c (createSession data) s = (Resolved v, sent, s') →
     v = data)
  ∧ (∀ answer s1,
       let hooked :=
         match transformer Op.createSession with
         | Some f => f data
         | None => data
         end in
       let payload :=
         VObj (<["user" := VObj {[ "id" := get_prop_opt hooked "userId" ]}]>
                 (delete "userId" (own_props hooked))) in
       let sent_payload :=
         match transformer Op.createSession with
         | Some f => if nullish (f payload) then payload else f payload
         | None => payload
         end in
       nullish hooked = false →
       c s (render fragments createSession_doc)
           (VObj {[ "input" := sent_payload ]})
         = (inr answer, s1) →
       exec c (createSession data) s
       = (Resolved data,
          [(render fragments createSession_doc,
            VObj {[ "input" := sent_payload ]})],
          s1))
  ∧ (∀ fields : gmap string value,
       let payload :=
         <["user" := VObj {[ "id" := default VUndefined (fields !! "userId") ]}]>
           (delete "userId" fields) in
       transformer Op.createSession = None →
       data = VObj fields →
       (exec c (createSession data) s).1.2
       = [(render fragments createSession_doc,
           VObj {[ "input" := VObj payload ]})]
       ∧ payload !! "user"
         = Some (VObj {[ "id" := default VUndefined (fields !! "userId") ]})
       ∧ payload !! "userId" = None
       ∧ (∀ key, key ≠ "user" → key ≠ "userId" →
                 payload !! key = fields !! key)).
Proof.
  split; [|split].
  - intros v sent s'. exec_op createSession. unfold destructure_rest.
    destruct (nullish _); exec_simpl; [done|].
    destruct (c s _ _) as [[e|answer] s1]; [done|].
    exec_simpl. by intros [= <- _ _].
  - intros answer s1 hooked payload sent_payload Hobj Hc.
    exec_op createSession. fold hooked.
    rewrite (destructure_rest_not_nullish _ _ Hobj). exec_simpl.
    unfold get_prop_opt at 1. fold (get_prop_opt hooked "userId").
    fold payload.
    assert (change Op.createSession payload = sent_payload) as ->.
    { unfold change, sent_payload.
      by destruct (transformer Op.createSession). }
    by rewrite Hc.
  - intros fields payload Hnone ->. split; [|split; [|split]].
    + exec_op createSession. unfold change. rewrite Hnone.
      unfold destructure_rest. cbn [nullish own_props]. exec_simpl.
      fold payload. by destruct (c s _ _) as [[e|answer] s1].
    + subst payload. by simplify_map_eq.
    + subst payload. by simplify_map_eq.
    + intros key Huser Hid. subst payload. by simplify_map_eq.
Qed.

(** C10 (amended): with a [createSession] transformer [f] configured whose
    output on the input is an object, [createSession] applies [f] to the
    input to destructure [userId], and [change] applies [f] again to the
    reconstructed payload (the first output without [userId], with the
    user relation injected); what is sent is that second output unless it
    is [null] or [undefined], in which case [??] falls back to the
    reconstructed payload itself. *)
Theorem createSession_applies_hook_twice
    (s : S) (f : Transformer) (data : value) :
  let payload :=
    VObj (<["user" := VObj {[ "id" := get_prop_opt (f data) "userId" ]}]>
            (delete "userId" (own_props (f data)))) in
  transformer Op.createSession = Some f →
  nullish (f data) = false →
  (exec c (createSession data) s).1.2
  = [(render fragments createSession_doc,
      VObj {[ "input" := if nullish (f payload) then payload else f payload ]})].
Proof.
  intros payload Hf Hobj. exec_op createSession. unfold change. rewrite Hf.
  rewrite (destructure_rest_not_nullish _ _ Hobj). exec_simpl.
  fold payload. by destruct (c s _ _) as [[e|answer] s1].
Qed.

(** ** Users *)

(** C1 (amended): when the first answer carries the deleted user with its
    account and session lists, [deleteUser] sends exactly two requests in
    order: the delete-user mutation, which also asks for the identifiers of
    the owned accounts and sessions, then a mutation deleting the accounts
    and sessions with those identifiers.  The value the second request
    answers with is discarded and the formatted user of the first answer is
    returned when the second request succeeds; a rejection of the second
    request is not caught and rejects [deleteUser] with the transport's
    error. *)
Theorem deleteUser_two_requests
    (s s1 : S) (id result : value) (user : gmap string value)
    (rest sessions accounts session_ids account_ids : list value) :
  let query := render fragments deleteUser_doc in
  let variables := VObj {[ "id" := change Op.deleteUser id ]} in
  let cascade := render fragments deleteUser_cascade_doc in
  let ids :=
    VObj {[ "sessions" := VArr session_ids; "accounts" := VArr account_ids ]} in
  c s query variables = (inr result, s1) →
  get_prop_opt result "user" = VArr (VObj user :: rest) →
  user !! "sessions" = Some (VArr sessions) →
  user !! "accounts" = Some (VArr accounts) →
  map_id_list sessions = Ret session_ids →
  map_id_list accounts = Ret account_ids →
  mentions "deleteUser(filter: { id: $id })" query = true
  ∧ mentions "accounts {" query = true
  ∧ mentions "sessions {" query = true
  ∧ mentions "deleteAccount(filter: { id: $accounts })" cascade = true
  ∧ mentions "deleteSession(filter: { id: $sessions })" cascade = true
  ∧ exec c (deleteUser id) s
    = match c s1 cascade ids with
      | (inr _, s2) =>
          (Resolved (format_from (VObj user)),
           [(query, variables); (cascade, ids)], s2)
      | (inl e, s2) =>
          (Rejected e, [(query, variables); (cascade, ids)], s2)
      end.
Proof.
  intros query variables cascade ids Hc Huser Hsessions Haccounts Hsids Haids.
  do 5 (split; [reflexivity|]).
  exec_op deleteUser. fold query variables. rewrite Hc. exec_simpl.
  rewrite (get_prop_defined _ _ _ Huser); [|done]. exec_simpl.
  rewrite get_prop_arr_first. cbn [head default from_option Datatypes.id]. exec_simpl.
  unfold get_prop, get_prop_opt. cbn [format_from nullish own_props].
  rewrite !lookup_fmap, Hsessions, Haccounts.
  cbn [fmap option_fmap option_map default from_option Datatypes.id format_field].
  exec_simpl.
  cbn [map_id]. exec_simpl. rewrite Hsids. exec_simpl.
  rewrite Haids. exec_simpl. fold cascade ids.
  by destruct (c s1 cascade ids) as [[e|answer] s2].
Qed.

(** ** Verification tokens *)

(** C5: [useVerificationToken] is delete-and-return: it sends one delete
    mutation filtered on both [identifier] and [token]; it resolves with
    the (formatted) deleted token when a record matched and with [null]
    when none did, so that, once the backend has deleted the token, a
    second invocation with the same key resolves with [null]. *)
Theorem useVerificationToken_single_use
    (s s1 s2 : S) (params result result' token : value) (rest : list value) :
  let query := render fragments useVerificationToken_doc in
  let variables := change Op.useVerificationToken params in
  c s query variables = (inr result, s1) →
  get_prop_opt result "verificationToken" = VArr (token :: rest) →
  c s1 query variables = (inr result', s2) →
  get_prop_opt result' "verificationToken" = VArr [] →
  mentions "deleteVerificationToken(" query = true
  ∧ mentions "and: { token: { eq: $token }, identifier: { eq: $identifier } }"
             query = true
  ∧ exec c (useVerificationToken params) s
    = (Resolved (format_from token), [(query, variables)], s1)
  ∧ exec c (useVerificationToken params) s1
    = (Resolved VNull, [(query, variables)], s2)
  ∧ exec c (first ← useVerificationToken params;
            second ← useVerificationToken params;
            Ret (first, second)) s
    = (Resolved (format_from token, VNull),
       [(query, variables); (query, variables)], s2).
Proof.
  intros query variables Hc Hmatch Hc' Hnone.
  assert (exec c (useVerificationToken params) s
          = (Resolved (format_from token), [(query, variables)], s1)) as Hfirst.
  { exec_op useVerificationToken. fold query variables. rewrite Hc. exec_simpl.
    rewrite (get_prop_defined _ _ _ Hmatch); [|done]. exec_simpl.
    by rewrite get_prop_arr_first. }
  assert (exec c (useVerificationToken params) s1
          = (Resolved VNull, [(query, variables)], s2)) as Hsecond.
  { exec_op useVerificationToken. fold query variables. rewrite Hc'. exec_simpl.
    rewrite (get_prop_defined _ _ _ Hnone); [|done]. exec_simpl.
    by rewrite get_prop_arr_first. }
  split; [reflexivity|]. split; [reflexivity|]. split; [done|]. split; [done|].
  rewrite exec_bind, Hfirst. rewrite exec_bind, Hsecond. by exec_simpl.
Qed.

(** ** Accounts *)

(** C2: [linkAccount] sends one add-account mutation whose [input] is the
    argument without its [userId] field and with the relation
    [{user: {id: userId}}] injected (handed to the [linkAccount] hook, which
    is the identity when none is configured), and resolves with the
    argument itself, not with the backend's answer. *)
Theorem linkAccount_injects_user_returns_input
    (s s1 : S) (data : gmap string value) (answer : value) :
  let userId := default VUndefined (data !! "userId") in
  let payload := <["user" := VObj {[ "id" := userId ]}]> (delete "userId" data) in
  let query := render fragments linkAccount_doc in
  let variables := VObj {[ "input" := change Op.linkAccount (VObj payload) ]} in
  c s query variables = (inr answer, s1) →
  exec c (linkAccount (VObj data)) s
  = (Resolved (VObj data), [(query, variables)], s1)
  ∧ mentions "addAccount(input: $input)" query = true
  ∧ (transformer Op.linkAccount = None →
     change Op.linkAccount (VObj payload) = VObj payload)
  ∧ payload !! "userId" = None
  ∧ payload !! "user" = Some (VObj {[ "id" := userId ]})
  ∧ (∀ key, key ≠ "user" → key ≠ "userId" → payload !! key = data !! key).
Proof.
  intros userId payload query variables Hc. split; [|split; [reflexivity|]].
  - exec_op linkAccount. unfold destructure_rest. cbn [nullish own_props].
    exec_simpl. fold userId payload variables query. by rewrite Hc.
  - split. { intros Hnone. unfold change. by rewrite Hnone. }
    subst payload. split; [by simplify_map_eq|]. split; [by simplify_map_eq|].
    intros key Huser Hid. by simplify_map_eq.
Qed.

End Claims.

(** ** Fragment overrides *)

Section Fragments.
Context {A B : Type} (fs fs' : Fragments).

Lemma sbf_bind (p p' : prog A) (f f' : A → prog B) :
  same_but_fragments fs fs' p p' →
  (∀ a, same_but_fragments fs fs' (f a) (f' a)) →
  same_but_fragments fs fs' (p ≫= f) (p' ≫= f').
Proof.
  intros Hp Hf. induction Hp as [a|e|t variables k k' _ IH]; exec_simpl.
  - apply Hf.
  - constructor.
  - constructor. intros answer. apply IH.
Qed.

(** A program that sends nothing is the same under any fragments. *)
Lemma sbf_result (p : prog A) :
  (∀ query variables k, p ≠ Run query variables k) →
  same_but_fragments fs fs' p p.
Proof.
  destruct p as [a|e|query variables k]; intros Hp; [constructor..|].
  by destruct (Hp query variables k).
Qed.

End Fragments.

Lemma map_id_list_sends_nothing (xs : list value) :
  (∃ ids, map_id_list xs = Ret ids) ∨ (∃ e, map_id_list xs = Throw e).
Proof.
  induction xs as [|x xs IH]; [left; by eexists|].
  cbn [map_id_list]. rewrite get_prop_unfold.
  destruct (nullish x); exec_simpl; [right; by eexists|].
  destruct IH as [[ids ->]|[e ->]]; exec_simpl; [left|right]; by eexists.
Qed.

Lemma sbf_map_id (fs fs' : Fragments) (v : value) :
  same_but_fragments fs fs' (map_id v) (map_id v).
Proof.
  apply sbf_result. intros query variables k.
  destruct v as [| | | | | |xs|]; try done. cbn [map_id].
  by destruct (map_id_list_sends_nothing xs) as [[ids ->]|[e ->]].
Qed.

(** Close a goal [same_but_fragments _ _ p p'] for two copies of one
    operation, request by request. *)
Ltac sbf_step :=
  first
    [ apply sbf_ret
    | apply sbf_throw
    | apply sbf_run; intros ?
    | apply sbf_map_id
    | apply sbf_bind; [|intros ?]
    | progress unfold get_prop, destructure_first, destructure_rest, run
    | match goal with
      | |- same_but_fragments _ _ (if ?b then _ else _) _ => destruct b
      | |- same_but_fragments _ _ (match ?v with _ => _ end) _ => destruct v
      end ].

Section Override.
Context (e e' : Env).
Hypothesis same_isDate : ∀ s, @isDate e s = @isDate e' s.
Hypothesis same_transformer : ∀ func, @transformer e func = @transformer e' func.

Lemma format_from_same (v : value) : @format_from e v = @format_from e' v.
Proof.
  destruct v as [| | | | | | |fields]; try done. cbn [format_from]. f_equal.
  apply map_fmap_ext. intros key [| | | |x| | |] _; try done.
  cbn [format_field]. by rewrite same_isDate.
Qed.

Lemma change_same (func : Op.name) (x : value) :
  @change e func x = @change e' func x.
Proof. unfold change. by rewrite same_transformer. Qed.

(** Under two configurations that agree on the formatter and on the hooks,
    every operation is the same program up to the fragments spliced into
    its documents. *)
Lemma adapter_same_but_fragments (op : Op.name) (x : value) :
  same_but_fragments (@fragments e) (@fragments e')
                     (@DgraphAdapter e op x) (@DgraphAdapter e' op x).
Proof.
  destruct op; cbn [DgraphAdapter];
    unfold createUser, getUser, getUserByEmail, getUserByAccount, updateUser,
      deleteUser, linkAccount, unlinkAccount, getSessionAndUser, createSession,
      updateSession, deleteSession, createVerificationToken,
      useVerificationToken;
    rewrite <- ?same_transformer;
    repeat (cbv zeta;
            rewrite <- ?format_from_same, <- ?change_same;
            sbf_step).
Qed.

End Override.

(** Against a backend whose answers do not depend on the spliced fragment
    text, two programs that are the same but for the fragments settle
    alike, send the same variables and leave the same backend state. *)
Lemma same_but_fragments_exec {A S : Type} (fs fs' : Fragments)
    (c : DgraphClient S) (p p' : prog A) :
  (∀ s t variables, c s (render fs t) variables = c s (render fs' t) variables) →
  same_but_fragments fs fs' p p' →
  ∀ s, (exec c p s).1.1 = (exec c p' s).1.1
       ∧ (exec c p s).1.2.*2 = (exec c p' s).1.2.*2
       ∧ (exec c p s).2 = (exec c p' s).2.
Proof.
  intros Hc Hp. induction Hp as [a|e|t variables k k' _ IH]; intros s;
    exec_simpl; [done..|].
  rewrite <- Hc. destruct (c s _ _) as [[e|answer] s1]; [done|].
  specialize (IH answer s1).
  destruct (exec c (k answer) s1) as [[o sent] s2].
  destruct (exec c (k' answer) s1) as [[o' sent'] s2'].
  cbn in IH |- *. destruct IH as (-> & -> & ->). done.
Qed.

(** C8: overriding fragments at construction time changes only the text
    spliced into the documents: for every operation and input the program
    is the same but for the fragments (the same templates, the same
    variables, the same treatment of every answer), the formatter and the
    hooks are those of the original configuration, and a backend that
    answers the two renderings of a template alike makes both settle
    alike. *)
Theorem fragment_override_changes_documents_only
    (e : Env) (overrides : option (fragment_name → option string))
    (op : Op.name) (x : value) :
  same_but_fragments (@fragments e) (@fragments (with_fragments e overrides))
    (@DgraphAdapter e op x) (@DgraphAdapter (with_fragments e overrides) op x)
  ∧ (∀ v, @format_from (with_fragments e overrides) v = @format_from e v)
  ∧ (∀ func v, @change (with_fragments e overrides) func v = @change e func v)
  ∧ (∀ (S : Type) (c : DgraphClient S),
       (∀ s t variables,
          c s (render (@fragments e) t) variables
          = c s (render (@fragments (with_fragments e overrides)) t) variables) →
       ∀ s,
         (exec c (@DgraphAdapter e op x) s).1.1
         = (exec c (@DgraphAdapter (with_fragments e overrides) op x) s).1.1
         ∧ (exec c (@DgraphAdapter e op x) s).1.2.*2
           = (exec c (@DgraphAdapter (with_fragments e overrides) op x) s).1.2.*2
         ∧ (exec c (@DgraphAdapter e op x) s).2
           = (exec c (@DgraphAdapter (with_fragments e overrides) op x) s).2).
Proof.
  assert (∀ func, @transformer e func
                  = @transformer (with_fragments e overrides) func) as Hhooks.
  { intros func. unfold transformer, with_fragments. cbn.
    by destruct (@options e) as [[frs [ts|]]|]. }
  assert (same_but_fragments (@fragments e)
            (@fragments (with_fragments e overrides))
            (@DgraphAdapter e op x)
            (@DgraphAdapter (with_fragments e overrides) op x)) as Hsame.
  { by apply adapter_same_but_fragments. }
  split; [done|]. split.
  { intros v. symmetry. by apply format_from_same. }
  split.
  { intros func v. symmetry. by apply change_same. }
  intros S c Hc s. apply (same_but_fragments_exec _ _ c _ _ Hc Hsame).
Qed.

(** * Instances *)

Lemma getUserByEmail_takes_first_witness :
  exec scripted (@getUserByEmail plain_env (VStr "ada@example.org"))
       [inr (VArr [sample_user; other_user])]
  = (Resolved (@format_from plain_env sample_user),
     [(render (@fragments plain_env) getUserByEmail_doc,
       VObj {[ "email" := VStr "ada@example.org" ]})],
     []).
Proof.
  exact (proj2 (getUserByEmail_takes_first (env := plain_env) scripted
                  [inr (VArr [sample_user; other_user])] []
                  (VStr "ada@example.org") sample_user [other_user] eq_refl)).
Defined.

Lemma lookups_resolve_null_when_not_found_witness :
  (exec scripted (@getUser plain_env (VStr "u9")) [inr VNull]).1.1
  = Resolved VNull
  ∧ (exec scripted (@getUserByAccount plain_env sample_account_key)
          [inr (VArr [])]).1.1
    = Resolved VNull
  ∧ (exec scripted (@getSessionAndUser plain_env (VStr "tok"))
          [inr (VArr [])]).1.1
    = Resolved VNull.
Proof.
  apply (lookups_resolve_null_when_not_found (env := plain_env) scripted
           [inr VNull] [] [inr (VArr [])] [] [inr (VArr [])] []
           (VStr "u9") sample_account_key (VStr "tok") VNull);
    reflexivity.
Defined.

Lemma getSessionAndUser_throws_without_user_witness :
  (exec scripted (@getSessionAndUser plain_env (VStr "tok"))
        [inr matched_orphan_session]).1.1
  = Rejected TypeError.
Proof.
  exact (proj1 (getSessionAndUser_throws_without_user (env := plain_env)
                  scripted [inr matched_orphan_session] [] (VStr "tok")
                  matched_orphan_session
                  (VObj {[ "sessionToken" := VStr "tok"; "user" := VNull ]})
                  eq_refl eq_refl)
               eq_refl eq_refl).
Defined.

Lemma updateSession_null_or_userId_witness :
  exec scripted (@updateSession plain_env sample_session)
       [inr orphan_session_answer]
  = (Resolved VNull,
     [(render (@fragments plain_env) updateSession_doc,
       VObj {[ "sessionToken" := VStr "tok";
               "input" :=
                 VObj {[ "userId" := VStr "u1";
                         "expires" := VStr "2030-01-01T00:00:00.000Z" ]} ]})],
     [])
  ∧ (exec scripted (@updateSession plain_env sample_session)
          [inr updated_session_answer]).1.1
    = Resolved (VObj {[ "sessionToken" := VStr "tok";
                        "user" := VObj {[ "id" := VStr "u1" ]};
                        "userId" := VStr "u1" ]}).
Proof.
  split.
  - exact (proj2 (updateSession_null_or_userId (env := plain_env) scripted
                    [inr orphan_session_answer] sample_session)
                 orphan_session_answer [] eq_refl eq_refl eq_refl eq_refl).
  - exact (f_equal (λ r, r.1.1)
             (proj2 (updateSession_null_or_userId (env := plain_env) scripted
                       [inr updated_session_answer] sample_session)
                    updated_session_answer [] eq_refl eq_refl eq_refl eq_refl)).
Defined.

Lemma useVerificationToken_single_use_witness :
  exec token_store (@useVerificationToken plain_env sample_token_key)
       [sample_token]
  = (Resolved (@format_from plain_env (VObj sample_token)),
     [(render (@fragments plain_env) useVerificationToken_doc,
       sample_token_key)],
     [])
  ∧ exec token_store
         (first ← @useVerificationToken plain_env sample_token_key;
          second ← @useVerificationToken plain_env sample_token_key;
          Ret (first, second))
         [sample_token]
    = (Resolved (@format_from plain_env (VObj sample_token), VNull),
       [(render (@fragments plain_env) useVerificationToken_doc,
         sample_token_key);
        (render (@fragments plain_env) useVerificationToken_doc,
         sample_token_key)],
       []).
Proof.
  pose proof (useVerificationToken_single_use (env := plain_env) token_store
                [sample_token] [] [] sample_token_key
                (VObj {[ "verificationToken" := VArr [VObj sample_token] ]})
                (VObj {[ "verificationToken" := VArr [] ]})
                (VObj sample_token) []
                eq_refl eq_refl eq_refl eq_refl) as H.
  split; [exact (proj1 (proj2 (proj2 H)))|exact (proj2 (proj2 (proj2 (proj2 H))))].
Defined.

(** The scenario of the spec: the mutation carries [user: {id: "u1"}] and
    the promise resolves with the input object. *)
Lemma linkAccount_injects_user_returns_input_witness :
  exec scripted (@linkAccount plain_env (VObj sample_account)) [inr VNull]
  = (Resolved (VObj sample_account),
     [(render (@fragments plain_env) linkAccount_doc,
       VObj {[ "input" :=
                 VObj {[ "provider" := VStr "github";
                         "providerAccountId" := VStr "42";
                         "type" := VStr "oauth";
                         "user" := VObj {[ "id" := VStr "u1" ]} ]} ]})],
     []).
Proof.
  exact (proj1 (linkAccount_injects_user_returns_input (env := plain_env)
                  scripted [inr VNull] [] sample_account VNull eq_refl)).
Defined.

Lemma deleteUser_two_requests_witness :
  exec scripted (@deleteUser plain_env (VStr "u1"))
       [inr deleted_user_answer; inr (VStr "ignored")]
  = (Resolved (VObj owned_relations),
     [(render (@fragments plain_env) deleteUser_doc,
       VObj {[ "id" := VStr "u1" ]});
      (render (@fragments plain_env) deleteUser_cascade_doc,
       VObj {[ "sessions" := VArr [VStr "s1"; VStr "s2"];
               "accounts" := VArr [VStr "a1"] ]})],
     [])
  ∧ (exec scripted (@deleteUser plain_env (VStr "u1"))
          [inr deleted_user_answer; inl transport_failure]).1.1
    = Rejected transport_failure.
Proof.
  split.
  - exact (proj2 (proj2 (proj2 (proj2 (proj2
             (deleteUser_two_requests (env := plain_env) scripted
                [inr deleted_user_answer; inr (VStr "ignored")]
                [inr (VStr "ignored")] (VStr "u1") deleted_user_answer
                owned_relations []
                [VObj {[ "id" := VStr "s1" ]}; VObj {[ "id" := VStr "s2" ]}]
                [VObj {[ "id" := VStr "a1" ]}]
                [VStr "s1"; VStr "s2"] [VStr "a1"]
                eq_refl eq_refl eq_refl eq_refl eq_refl eq_refl)))))).
  - exact (f_equal (λ r, r.1.1)
             (proj2 (proj2 (proj2 (proj2 (proj2
                (deleteUser_two_requests (env := plain_env) scripted
                   [inr deleted_user_answer; inl transport_failure]
                   [inl transport_failure] (VStr "u1") deleted_user_answer
                   owned_relations []
                   [VObj {[ "id" := VStr "s1" ]}; VObj {[ "id" := VStr "s2" ]}]
                   [VObj {[ "id" := VStr "a1" ]}]
                   [VStr "s1"; VStr "s2"] [VStr "a1"]
                   eq_refl eq_refl eq_refl eq_refl eq_refl eq_refl))))))).
Defined.

(** C1 as stated fails: with the first request answered and the second one
    rejected, [deleteUser] rejects; the caller does not receive the user. *)
Lemma deleteUser_cascade_failure_is_surfaced :
  ¬ (∀ (S : Type) (c : DgraphClient S) (s s1 : S) (id result : value),
       c s (render (@fragments plain_env) deleteUser_doc)
           (VObj {[ "id" := @change plain_env Op.deleteUser id ]})
         = (inr result, s1) →
       (exec c (@deleteUser plain_env id) s).1.1
       = Resolved
           (@format_from plain_env
              (get_prop_opt (get_prop_opt result "user") "0"))).
Proof.
  intros Hclaim.
  specialize (Hclaim _ scripted
                [inr deleted_user_answer; inl transport_failure]
                [inl transport_failure] (VStr "u1") deleted_user_answer
                eq_refl).
  vm_compute in Hclaim. discriminate Hclaim.
Qed.

(** With [reshaping_hook] the request carries the hook's second output and
    no user relation, and the promise resolves with the input; with no hook
    the request carries the relation of the input's [userId]. *)
Lemma createSession_returns_input_witness :
  exec scripted
       (@createSession (createSession_hook_env reshaping_hook) sample_session)
       [inr VNull]
  = (Resolved sample_session,
     [(render (@fragments (createSession_hook_env reshaping_hook))
              createSession_doc,
       VObj {[ "input" :=
                 VObj {[ "userId" := VStr "u2"; "token" := VStr "t2" ]} ]})],
     [])
  ∧ (exec scripted (@createSession plain_env sample_session) [inr VNull]).1.2
    = [(render (@fragments plain_env) createSession_doc,
        VObj {[ "input" :=
                  VObj {[ "sessionToken" := VStr "tok";
                          "expires" := VStr "2030-01-01T00:00:00.000Z";
                          "user" := VObj {[ "id" := VStr "u1" ]} ]} ]})].
Proof.
  split.
  - exact (proj1 (proj2 (createSession_returns_input
                           (env := createSession_hook_env reshaping_hook)
                           scripted [inr VNull] sample_session))
                 VNull [] eq_refl eq_refl).
  - exact (proj1 (proj2 (proj2 (createSession_returns_input
                                  (env := plain_env)
                                  scripted [inr VNull] sample_session))
                        {[ "sessionToken" := VStr "tok"; "userId" := VStr "u1";
                           "expires" := VStr "2030-01-01T00:00:00.000Z" ]}
                        eq_refl eq_refl)).
Defined.

(** C3 as stated fails twice at one input: the record a [createSession]
    hook returns does not shape the returned value, which keeps the fields
    of the input; and with that hook the payload sent does not carry the
    relation of the input's [userId]. *)
Lemma createSession_hook_does_not_shape_result :
  ¬ (∀ (f : Transformer) (data v : value) (script : list (exn + value)),
       (exec scripted (@createSession (createSession_hook_env f) data)
             script).1.1
       = Resolved v →
       dom (own_props v) = dom (own_props (f data)))
  ∧ ¬ (∀ (f : Transformer) (data : value) (script : list (exn + value)),
         match (exec scripted (@createSession (createSession_hook_env f) data)
                     script).1.2 with
         | [(_, variables)] =>
             get_prop_opt (get_prop_opt variables "input") "user"
             = VObj {[ "id" := get_prop_opt data "userId" ]}
         | _ => True
         end).
Proof.
  split.
  - intros Hclaim.
    specialize (Hclaim reshaping_hook sample_session sample_session
                  [inr VNull] eq_refl).
    apply (f_equal (λ keys, bool_decide ("token" ∈ keys))) in Hclaim.
    vm_compute in Hclaim. discriminate Hclaim.
  - intros Hclaim.
    specialize (Hclaim reshaping_hook sample_session [inr VNull]).
    apply (f_equal nullish) in Hclaim.
    vm_compute in Hclaim. discriminate Hclaim.
Qed.

(** The second output of [declining_hook] is [undefined]: the reconstructed
    payload is sent. *)
Lemma createSession_applies_hook_twice_witness :
  (exec scripted
        (@createSession (createSession_hook_env declining_hook) sample_session)
        [inr VNull]).1.2
  = [(render (@fragments (createSession_hook_env declining_hook))
             createSession_doc,
      VObj {[ "input" :=
                VObj {[ "sessionToken" := VStr "tok";
                        "expires" := VStr "never";
                        "user" := VObj {[ "id" := VStr "u1" ]} ]} ]})].
Proof.
  exact (createSession_applies_hook_twice
           (env := createSession_hook_env declining_hook)
           scripted [inr VNull] declining_hook sample_session
           eq_refl eq_refl).
Defined.

(** C10 as stated fails: when the second application of the hook returns
    [undefined], the payload sent is not the hook's second output. *)
Lemma createSession_second_output_not_always_sent :
  ¬ (∀ (f : Transformer) (data : value) (script : list (exn + value)),
       nullish (f data) = false →
       (exec scripted (@createSession (createSession_hook_env f) data)
             script).1.2
       = [(render (@fragments (createSession_hook_env f)) createSession_doc,
           VObj {[ "input" :=
                     f (VObj (<["user" :=
                                  VObj {[ "id" := get_prop_opt (f data) "userId" ]}]>
                                (delete "userId" (own_props (f data))))) ]})]).
Proof.
  intros Hclaim.
  specialize (Hclaim declining_hook sample_session [inr VNull] eq_refl).
  apply (f_equal (λ sent : list request,
                    match sent with
                    | [(_, variables)] => nullish (get_prop_opt variables "input")
                    | _ => false
                    end)) in Hclaim.
  vm_compute in Hclaim. discriminate Hclaim.
Qed.

Lemma fragment_override_changes_documents_only_witness :
  (exec scripted (@DgraphAdapter plain_env Op.getUser (VStr "u1"))
        [inr sample_user]).1.1
  = (exec scripted
          (@DgraphAdapter (with_fragments plain_env short_user_fragment)
                          Op.getUser (VStr "u1"))
          [inr sample_user]).1.1.
Proof.
  pose proof (fragment_override_changes_documents_only plain_env
                short_user_fragment Op.getUser (VStr "u1")) as H.
  exact (proj1 (proj2 (proj2 (proj2 H)) _ scripted
                  (λ s t variables, eq_refl) [inr sample_user])).
Defined.

(** * Further properties of the operations *)

(** ** Requests and rejections *)

Lemma follows_bind_pure {A B : Type} (queries : list string)
    (p : prog A) (f : A → prog B) :
  follows [] p → (∀ a, follows queries (f a)) → follows queries (p ≫= f).
Proof.
  intros Hp Hf. inversion Hp as [a|qs|]; subst; exec_simpl.
  - apply Hf.
  - constructor.
Qed.

Lemma follows_bind_run {A : Type} (query : string) (queries : list string)
    (variables : value) (f : value → prog A) :
  (∀ answer, follows queries (f answer)) →
  follows (query :: queries) (run query variables ≫= f).
Proof. intros Hf. unfold run. exec_simpl. by constructor. Qed.

Lemma map_id_list_result (xs : list value) :
  (∃ ids, map_id_list xs = Ret ids) ∨ map_id_list xs = Throw TypeError.
Proof.
  induction xs as [|x xs IH]; [left; by eexists|].
  cbn [map_id_list]. rewrite get_prop_unfold.
  destruct (nullish x); exec_simpl; [by right|].
  destruct IH as [[ids ->]| ->]; exec_simpl; [left; by eexists|by right].
Qed.

Lemma follows_map_id (v : value) : follows [] (map_id v).
Proof.
  destruct v as [| | | | | |xs|]; try constructor. cbn [map_id].
  destruct (map_id_list_result xs) as [[ids ->]| ->]; exec_simpl; constructor.
Qed.

(** Walk through an operation, one bind at a time. *)
Ltac follows_step :=
  match goal with
  | |- follows _ (Ret _) => apply follows_ret
  | |- follows _ (Throw TypeError) => apply follows_throw
  | |- follows _ (map_id _) => apply follows_map_id
  | |- follows _ (run _ _ ≫= _) => apply follows_bind_run; intros ?
  | |- follows _ (_ ≫= _) => apply follows_bind_pure; [|intros ?]
  | |- follows _ (if ?b then _ else _) => destruct b
  | |- follows _ (match ?v with _ => _ end) => destruct v
  | _ => progress unfold get_prop, destructure_first, destructure_rest
  end.

(** Every operation sends its documents in order and throws nothing but
    [TypeError] itself. *)
Lemma adapter_follows_documents {env : Env} (op : Op.name) (x : value) :
  follows (render fragments <$> documents op) (DgraphAdapter op x).
Proof.
  destruct op; cbn [DgraphAdapter documents fmap list_fmap];
    unfold createUser, getUser, getUserByEmail, getUserByAccount, updateUser,
      deleteUser, linkAccount, unlinkAccount, getSessionAndUser, createSession,
      updateSession, deleteSession, createVerificationToken,
      useVerificationToken;
    repeat (cbv zeta; follows_step).
Qed.

Lemma exec_follows {A S : Type} (c : DgraphClient S) (queries : list string)
    (p : prog A) (s : S) :
  follows queries p →
  match (exec c p s).1.1 with
  | Resolved _ => (exec c p s).1.2.*1 = queries
  | Rejected e =>
      (exec c p s).1.2.*1 `prefix_of` queries
      ∧ (e = TypeError ∨ ∃ s0 query variables s1,
                            c s0 query variables = (inl e, s1))
  end.
Proof.
  intros Hp. revert s.
  induction Hp as [a|queries|query queries variables k _ IH]; intros s;
    exec_simpl.
  - done.
  - split; [apply prefix_nil|by left].
  - destruct (c s query variables) as [[e|answer] s1] eqn:Hc; exec_simpl.
    + split; [apply prefix_cons, prefix_nil|]. right. by eexists _, _, _, _.
    + specialize (IH answer s1).
      destruct (exec c (k answer) s1) as [[[a|e] sent] s2]; cbn in IH |- *.
      * by rewrite IH.
      * destruct IH as [Hprefix Herr]. split; [by apply prefix_cons|done].
Qed.

Lemma exec_first_request_rejected {A S : Type} (c : DgraphClient S)
    (query : string) (queries : list string) (p : prog A) (s s' : S) (e : exn) :
  follows (query :: queries) p →
  (∀ q variables, c s q variables = (inl e, s')) →
  exec c p s = (Rejected TypeError, [], s)
  ∨ ∃ variables, exec c p s = (Rejected e, [(query, variables)], s').
Proof.
  intros Hp Hc. inversion Hp as [|qs|q qs variables k Hk]; subst; exec_simpl.
  - by left.
  - right. exists variables. by rewrite Hc.
Qed.

Section Requests.
Context {env : Env} {S : Type} (c : DgraphClient S).

(** X1: an operation that resolves has sent exactly its documents, in
    order: one request, or the two of [deleteUser]; an operation that
    rejects has sent an initial part of them. *)
Theorem operations_send_their_documents (op : Op.name) (x : value) (s : S) :
  match (exec c (DgraphAdapter op x) s).1.1 with
  | Resolved _ =>
      (exec c (DgraphAdapter op x) s).1.2.*1 = render fragments <$> documents op
  | Rejected _ =>
      (exec c (DgraphAdapter op x) s).1.2.*1
        `prefix_of` render fragments <$> documents op
  end.
Proof.
  pose proof (exec_follows c _ _ s (adapter_follows_documents op x)) as H.
  destruct ((exec c (DgraphAdapter op x) s).1.1); [done|by destruct H].
Qed.

(** X2: an operation for which no transformer is configured rejects only
    with a [TypeError] or with an error the client raised: the adapter has
    no error of its own.  (A configured transformer that throws rejects the
    operation with its own error.) *)
Theorem rejections_come_from_transport_or_type_error
    (op : Op.name) (x : value) (s : S) :
  transformer op = None →
  match (exec c (DgraphAdapter op x) s).1.1 with
  | Resolved _ => True
  | Rejected e =>
      e = TypeError
      ∨ ∃ s0 query variables s1, c s0 query variables = (inl e, s1)
  end.
Proof.
  intros _.
  pose proof (exec_follows c _ _ s (adapter_follows_documents op x)) as H.
  destruct ((exec c (DgraphAdapter op x) s).1.1); [done|by destruct H].
Qed.

(** X3: when the client rejects the first request of an operation for
    which no transformer is configured, the operation rejects with that
    very error after that one request and sends nothing more; the only
    other outcome is a [TypeError] raised before anything is sent.  (A
    configured transformer that throws is a third outcome.) *)
Theorem first_rejection_is_surfaced
    (op : Op.name) (x : value) (s s' : S) (e : exn) :
  transformer op = None →
  (∀ query variables, c s query variables = (inl e, s')) →
  exec c (DgraphAdapter op x) s = (Rejected TypeError, [], s)
  ∨ ∃ variables query,
      head (render fragments <$> documents op) = Some query
      ∧ exec c (DgraphAdapter op x) s = (Rejected e, [(query, variables)], s').
Proof.
  intros _ Hc. pose proof (adapter_follows_documents op x) as Hp.
  destruct (render fragments <$> documents op) as [|query queries] eqn:Hdocs.
  { by destruct op. }
  destruct (exec_first_request_rejected c _ _ _ s s' e Hp Hc) as [H|[v H]];
    [by left|right]. by exists v, query.
Qed.

End Requests.

Lemma rejections_come_from_transport_or_type_error_witness :
  match (exec scripted (@DgraphAdapter plain_env Op.deleteUser (VStr "u1"))
              [inr deleted_user_answer; inl transport_failure]).1.1 with
  | Resolved _ => True
  | Rejected e =>
      e = TypeError
      ∨ ∃ s0 query variables s1,
          scripted s0 query variables = (inl e, s1)
  end.
Proof.
  exact (rejections_come_from_transport_or_type_error (env := plain_env)
           scripted Op.deleteUser (VStr "u1")
           [inr deleted_user_answer; inl transport_failure] eq_refl).
Defined.

Lemma first_rejection_is_surfaced_witness :
  exec (unreachable transport_failure) (@DgraphAdapter plain_env Op.getUser (VStr "u1")) tt
  = (Rejected TypeError, [], tt)
  ∨ ∃ variables query,
      head (render (@fragments plain_env) <$> documents Op.getUser) = Some query
      ∧ exec (unreachable transport_failure)
             (@DgraphAdapter plain_env Op.getUser (VStr "u1")) tt
        = (Rejected transport_failure, [(query, variables)], tt).
Proof.
  exact (first_rejection_is_surfaced (env := plain_env)
           (unreachable transport_failure) Op.getUser (VStr "u1") tt tt
           transport_failure eq_refl (λ query variables, eq_refl)).
Defined.

(** ** What an operation takes from the configuration *)

Lemma render_frame (fs fs' : Fragments) (t : template) :
  (∀ name, name ∈ holes t → fs name = fs' name) → render fs t = render fs' t.
Proof.
  induction t as [|[text|name] t IH]; intros Hfs; [done|..];
    cbn [render foldr piece_text]; fold (render fs t); fold (render fs' t).
  - f_equal. apply IH. intros name Hname. apply Hfs. done.
  - rewrite (Hfs name) by (cbn; left). f_equal. apply IH.
    intros name' Hname'. apply Hfs. cbn. by right.
Qed.

Lemma transformer_with_fragments (e : Env)
    (overrides : option (fragment_name → option string)) (func : Op.name) :
  @transformer (with_fragments e overrides) func = @transformer e func.
Proof.
  unfold transformer, with_fragments. cbn.
  by destruct (@options e) as [[frs [ts|]]|].
Qed.

Lemma fragments_with_transformer (e : Env) (func : Op.name)
    (hook : option Transformer) (name : fragment_name) :
  @fragments (with_transformer e func hook) name = @fragments e name.
Proof.
  unfold fragments, with_transformer. cbn.
  by destruct (@options e) as [[[frs|] ts]|].
Qed.

Lemma transformer_with_transformer (e : Env) (func op : Op.name)
    (hook : option Transformer) :
  @transformer (with_transformer e func hook) op
  = if decide (op = func) then hook else @transformer e op.
Proof. reflexivity. Qed.

(** An operation depends on the configuration through the date test of the
    formatter, its own hook and the text of its own documents only. *)
Lemma adapter_ext (e e' : Env) (op : Op.name) (x : value) :
  @isDate e = @isDate e' →
  @transformer e op = @transformer e' op →
  (∀ t, t ∈ documents op → render (@fragments e) t = render (@fragments e') t) →
  @DgraphAdapter e op x = @DgraphAdapter e' op x.
Proof.
  intros Hdate Hhook Hdocs.
  destruct op; cbn [DgraphAdapter documents] in *;
    unfold createUser, getUser, getUserByEmail, getUserByAccount, updateUser,
      deleteUser, linkAccount, unlinkAccount, getSessionAndUser, createSession,
      updateSession, deleteSession, createVerificationToken,
      useVerificationToken, change, format_from, format_field;
    rewrite ?Hdate, ?Hhook;
    repeat match goal with
           | |- context [render (@fragments e) ?t] =>
               rewrite (Hdocs t) by (repeat constructor)
           end;
    reflexivity.
Qed.

(** X4: replacing the fragments leaves alone every operation whose
    documents splice none of the fragments that changed: the operation is
    the same program, documents included. *)
Theorem fragment_override_is_local
    (e : Env) (overrides : option (fragment_name → option string))
    (op : Op.name) (x : value) :
  (∀ t name, t ∈ documents op → name ∈ holes t →
             @fragments (with_fragments e overrides) name = @fragments e name) →
  @DgraphAdapter (with_fragments e overrides) op x = @DgraphAdapter e op x.
Proof.
  intros Hsame. apply adapter_ext; [done|apply transformer_with_fragments|].
  intros t Ht. apply render_frame. intros name Hname.
  exact (Hsame t name Ht Hname).
Qed.

(** X5: a hook is keyed by its operation: configuring, replacing or
    removing the hook of one operation changes no other operation. *)
Theorem hook_is_local
    (e : Env) (func op : Op.name) (hook : option Transformer) (x : value) :
  op ≠ func →
  @DgraphAdapter (with_transformer e func hook) op x = @DgraphAdapter e op x.
Proof.
  intros Hop. apply adapter_ext; [done|..].
  - rewrite transformer_with_transformer. by rewrite decide_False.
  - intros t _. apply render_frame. intros name _.
    apply fragments_with_transformer.
Qed.

(** X6: [change] never blanks an argument: whatever the hook returns, what
    is sent for a non-null argument is not [null] or [undefined]. *)
Theorem change_keeps_argument {env : Env} (func : Op.name) (x : value) :
  nullish x = false → nullish (change func x) = false.
Proof.
  intros Hx. unfold change. destruct (transformer func) as [f|]; [|done].
  cbv zeta. by destruct (nullish (f x)) eqn:Hfx.
Qed.

(** X7: every document defines what it spreads: the text of a document
    contains the spread [...XFragment] exactly when the document splices
    [fragments.X]. *)
Theorem documents_splice_what_they_spread (op : Op.name) (name : fragment_name) :
  Forall (λ t, mentions (spread name) (literal_text t)
               = bool_decide (name ∈ holes t))
         (documents op).
Proof. destruct op, name; repeat constructor. Qed.

Lemma fragment_override_is_local_witness :
  @DgraphAdapter (with_fragments plain_env short_user_fragment)
                 Op.createSession sample_session
  = @DgraphAdapter plain_env Op.createSession sample_session.
Proof.
  apply (fragment_override_is_local plain_env short_user_fragment
           Op.createSession sample_session).
  intros t name Ht Hname. apply list_elem_of_singleton in Ht. subst t.
  apply list_elem_of_singleton in Hname. by subst name.
Defined.

Lemma hook_is_local_witness :
  @DgraphAdapter (with_transformer plain_env Op.createSession (Some reshaping_hook))
                 Op.getUser (VStr "u1")
  = @DgraphAdapter plain_env Op.getUser (VStr "u1").
Proof.
  apply (hook_is_local plain_env Op.createSession Op.getUser
           (Some reshaping_hook) (VStr "u1")).
  discriminate.
Defined.

Lemma change_keeps_argument_witness :
  nullish (@change (createSession_hook_env declining_hook) Op.createSession
             (VObj {[ "user" := VObj {[ "id" := VStr "u1" ]} ]}))
  = false.
Proof.
  apply (change_keeps_argument (env := createSession_hook_env declining_hook)).
  reflexivity.
Defined.

(** ** Answers and arguments at the edges *)

Lemma map_id_list_records (records : list (gmap string value)) :
  map_id_list (VObj <$> records)
  = Ret ((λ fields, default VUndefined (fields !! "id")) <$> records).
Proof.
  induction records as [|fields records IH]; [done|].
  cbn [fmap list_fmap map_id_list] in *. rewrite get_prop_unfold.
  cbn [nullish]. exec_simpl. rewrite IH. by exec_simpl.
Qed.

Section Edges.
Context {env : Env} {S : Type} (c : DgraphClient S).

(** X8: [createUser] resolves with the formatted first record of the
    answer's [user] list, with [null] when the answer itself is [null] or
    [undefined] ([result?.user[0]]) or the list is empty, and rejects with
    a [TypeError] when a non-null answer has no [user] list. *)
Theorem createUser_returns_first_created (s s1 : S) (input answer : value) :
  c s (render fragments createUser_doc)
      (VObj {[ "input" := change Op.createUser input ]})
    = (inr answer, s1) →
  (exec c (createUser input) s).1.1
  = if nullish answer then Resolved VNull
    else if nullish (get_prop_opt answer "user") then Rejected TypeError
         else Resolved
                (format_from (get_prop_opt (get_prop_opt answer "user") "0")).
Proof.
  intros Hc. exec_op createUser. rewrite Hc. exec_simpl.
  destruct (nullish answer) eqn:Hanswer; exec_simpl; [done|].
  rewrite (get_prop_not_nullish _ _ Hanswer). exec_simpl.
  rewrite get_prop_unfold.
  by destruct (nullish (get_prop_opt answer "user")).
Qed.


(** X10: [deleteUser] of a user the backend does not know (an empty [user]
    list in the answer) rejects with a [TypeError] after the first request:
    the formatted user is [null], its [sessions] cannot be read, and the
    second mutation is never sent. *)
Theorem deleteUser_unknown_user (s s1 : S) (id answer : value) :
  c s (render fragments deleteUser_doc)
      (VObj {[ "id" := change Op.deleteUser id ]})
    = (inr answer, s1) →
  get_prop_opt answer "user" = VArr [] →
  exec c (deleteUser id) s
  = (Rejected TypeError,
     [(render fragments deleteUser_doc,
       VObj {[ "id" := change Op.deleteUser id ]})],
     s1).
Proof.
  intros Hc Huser. exec_op deleteUser. rewrite Hc. exec_simpl.
  rewrite (get_prop_defined _ _ _ Huser); [|done]. exec_simpl.
  by rewrite get_prop_arr_first.
Qed.

(** X11: the second request of [deleteUser] carries one identifier per
    owned record of the first answer, in the order of the answer:
    [sessions] and [accounts] are the [id]s of the session and account
    records ([undefined] for a record without [id]), whatever the second
    request then answers. *)
Theorem deleteUser_cascade_identifiers
    (s s1 : S) (id answer : value) (user : gmap string value)
    (rest : list value) (sessions accounts : list (gmap string value)) :
  c s (render fragments deleteUser_doc)
      (VObj {[ "id" := change Op.deleteUser id ]})
    = (inr answer, s1) →
  get_prop_opt answer "user" = VArr (VObj user :: rest) →
  user !! "sessions" = Some (VArr (VObj <$> sessions)) →
  user !! "accounts" = Some (VArr (VObj <$> accounts)) →
  (exec c (deleteUser id) s).1.2
  = [(render fragments deleteUser_doc,
      VObj {[ "id" := change Op.deleteUser id ]});
     (render fragments deleteUser_cascade_doc,
      VObj {[ "sessions" :=
                VArr ((λ fields, default VUndefined (fields !! "id"))
                        <$> sessions);
              "accounts" :=
                VArr ((λ fields, default VUndefined (fields !! "id"))
                        <$> accounts) ]})].
Proof.
  intros Hc Huser Hsessions Haccounts. exec_op deleteUser.
  rewrite Hc. exec_simpl.
  rewrite (get_prop_defined _ _ _ Huser); [|done]. exec_simpl.
  rewrite get_prop_arr_first. cbn [head default from_option Datatypes.id].
  exec_simpl.
  unfold get_prop, get_prop_opt. cbn [format_from nullish own_props].
  rewrite !lookup_fmap, Hsessions, Haccounts.
  cbn [fmap option_fmap option_map default from_option Datatypes.id format_field].
  exec_simpl. cbn [map_id]. rewrite !map_id_list_records. exec_simpl.
  by destruct (c s1 _ _) as [[e|answer2] s2].
Qed.

(** X12: [updateUser] splits its argument: the [id] becomes the filter and
    the patch is the argument without [id]; it resolves with the formatted
    first record of the answer's [user] list. *)
Theorem updateUser_patch_excludes_id
    (s s1 : S) (fields : gmap string value) (answer first : value)
    (rest : list value) :
  let patch := delete "id" fields in
  let variables :=
    change Op.updateUser
      (VObj {[ "id" := default VUndefined (fields !! "id");
               "input" := VObj patch ]}) in
  c s (render fragments updateUser_doc) variables = (inr answer, s1) →
  get_prop_opt answer "user" = VArr (first :: rest) →
  exec c (updateUser (VObj fields)) s
  = (Resolved (format_from first),
     [(render fragments updateUser_doc, variables)], s1)
  ∧ patch !! "id" = None
  ∧ (∀ key, key ≠ "id" → patch !! key = fields !! key).
Proof.
  intros patch variables Hc Huser. split; [|split].
  - exec_op updateUser. unfold destructure_rest. cbn [nullish own_props].
    exec_simpl. fold patch variables. rewrite Hc. exec_simpl.
    rewrite (get_prop_defined _ _ _ Huser); [|done]. exec_simpl.
    by rewrite get_prop_arr_first.
  - apply lookup_delete_eq.
  - intros key Hkey. by apply lookup_delete_ne.
Qed.

(** X13: the operations that destructure their argument reject a [null] or
    [undefined] argument with a [TypeError] before anything is sent:
    [updateUser], [linkAccount], [updateSession], and [createSession] when
    no [createSession] hook is configured. *)
Theorem null_argument_sends_nothing (s : S) (arg : value) :
  nullish arg = true →
  exec c (updateUser arg) s = (Rejected TypeError, [], s)
  ∧ exec c (linkAccount arg) s = (Rejected TypeError, [], s)
  ∧ exec c (updateSession arg) s = (Rejected TypeError, [], s)
  ∧ (transformer Op.createSession = None →
     exec c (createSession arg) s = (Rejected TypeError, [], s)).
Proof.
  intros Harg. repeat split.
  - exec_op updateUser. unfold destructure_rest. by rewrite Harg.
  - exec_op linkAccount. unfold destructure_rest. by rewrite Harg.
  - exec_op updateSession. unfold destructure_rest. by rewrite Harg.
  - intros Hnone. exec_op createSession. rewrite Hnone.
    unfold destructure_rest. by rewrite Harg.
Qed.

(** X14: [getSessionAndUser] splits the first matched record: [user] is the
    formatted joined user, and [session] is the rest of the record
    formatted, without the [user] field and with [userId] set to the
    joined user's [id]. *)
Theorem getSessionAndUser_splits_record
    (s s1 : S) (sessionToken user : value) (record : gmap string value)
    (rest : list value) :
  let variables :=
    VObj {[ "sessionToken" := change Op.getSessionAndUser sessionToken ]} in
  let session :=
    <["userId" := get_prop_opt user "id"]>
      (format_field <$> delete "user" record) in
  c s (render fragments getSessionAndUser_doc) variables
    = (inr (VArr (VObj record :: rest)), s1) →
  record !! "user" = Some user →
  nullish user = false →
  exec c (getSessionAndUser sessionToken) s
  = (Resolved (VObj {[ "user" := format_from user;
                       "session" := VObj session ]}),
     [(render fragments getSessionAndUser_doc, variables)], s1)
  ∧ session !! "user" = None
  ∧ session !! "userId" = Some (get_prop_opt user "id")
  ∧ (∀ key, key ≠ "user" → key ≠ "userId" →
            session !! key = format_field <$> record !! key).
Proof.
  intros variables session Hc Huser Hobj. split; [|split; [|split]].
  - exec_op getSessionAndUser. fold variables. rewrite Hc. exec_simpl.
    cbn [destructure_first head default from_option Datatypes.id].
    exec_simpl. cbn [truthy negb].
    unfold destructure_rest. cbn [nullish own_props]. exec_simpl.
    rewrite Huser. cbn [default from_option Datatypes.id].
    rewrite (get_prop_not_nullish _ _ Hobj). by exec_simpl.
  - subst session. rewrite lookup_insert_ne by done.
    by rewrite lookup_fmap, lookup_delete_eq.
  - subst session. apply lookup_insert_eq.
  - intros key Hkey Hid. subst session. rewrite lookup_insert_ne by done.
    by rewrite lookup_fmap, lookup_delete_ne.
Qed.

(** X15: [getUserByAccount] resolves with the formatted [user] of the first
    matching account, and with [null] when that account carries no user
    ([account?.user]). *)
Theorem getUserByAccount_returns_owner
    (s s1 : S) (key account : value) (rest : list value) :
  c s (render fragments getUserByAccount_doc) (change Op.getUserByAccount key)
    = (inr (VArr (account :: rest)), s1) →
  (exec c (getUserByAccount key) s).1.1
  = Resolved (format_from (get_prop_opt account "user"))
  ∧ (nullish (get_prop_opt account "user") = true →
     (exec c (getUserByAccount key) s).1.1 = Resolved VNull).
Proof.
  intros Hc.
  assert ((exec c (getUserByAccount key) s).1.1
          = Resolved (format_from (get_prop_opt account "user"))) as Hfound.
  { exec_op getUserByAccount. by rewrite Hc. }
  split; [done|]. intros Hnone. rewrite Hfound.
  by destruct (get_prop_opt account "user").
Qed.

(** X16: [getUserByEmail] resolves with [null] when no user has the
    email: an empty list is a not-found, not an error. *)
Theorem getUserByEmail_null_when_not_found (s s1 : S) (email : value) :
  c s (render fragments getUserByEmail_doc)
      (VObj {[ "email" := change Op.getUserByEmail email ]})
    = (inr (VArr []), s1) →
  exec c (getUserByEmail email) s
  = (Resolved VNull,
     [(render fragments getUserByEmail_doc,
       VObj {[ "email" := change Op.getUserByEmail email ]})],
     s1).
Proof. intros Hc. exec_op getUserByEmail. by rewrite Hc. Qed.

End Edges.

Lemma createUser_returns_first_created_witness :
  (exec scripted (@createUser plain_env sample_user) [inr created_user_answer]).1.1
  = Resolved (@format_from plain_env sample_user).
Proof.
  exact (createUser_returns_first_created (env := plain_env) scripted
           [inr created_user_answer] [] sample_user created_user_answer
           eq_refl).
Defined.


Lemma deleteUser_unknown_user_witness :
  exec scripted (@deleteUser plain_env (VStr "u9"))
       [inr unknown_user_answer; inr VNull]
  = (Rejected TypeError,
     [(render (@fragments plain_env) deleteUser_doc,
       VObj {[ "id" := VStr "u9" ]})],
     [inr VNull]).
Proof.
  exact (deleteUser_unknown_user (env := plain_env) scripted
           [inr unknown_user_answer; inr VNull] [inr VNull] (VStr "u9")
           unknown_user_answer eq_refl eq_refl).
Defined.

Lemma deleteUser_cascade_identifiers_witness :
  (exec scripted (@deleteUser plain_env (VStr "u1"))
        [inr deleted_user_answer; inr VNull]).1.2
  = [(render (@fragments plain_env) deleteUser_doc,
      VObj {[ "id" := VStr "u1" ]});
     (render (@fragments plain_env) deleteUser_cascade_doc,
      VObj {[ "sessions" := VArr [VStr "s1"; VStr "s2"];
              "accounts" := VArr [VStr "a1"] ]})].
Proof.
  exact (deleteUser_cascade_identifiers (env := plain_env) scripted
           [inr deleted_user_answer; inr VNull] [inr VNull] (VStr "u1")
           deleted_user_answer owned_relations []
           [{[ "id" := VStr "s1" ]}; {[ "id" := VStr "s2" ]}]
           [{[ "id" := VStr "a1" ]}]
           eq_refl eq_refl eq_refl eq_refl).
Defined.

Lemma updateUser_patch_excludes_id_witness :
  exec scripted (@updateUser plain_env (VObj sample_user_patch))
       [inr created_user_answer]
  = (Resolved (@format_from plain_env sample_user),
     [(render (@fragments plain_env) updateUser_doc,
       VObj {[ "id" := VStr "u1";
               "input" := VObj {[ "name" := VStr "Ada" ]} ]})],
     []).
Proof.
  exact (proj1 (updateUser_patch_excludes_id (env := plain_env) scripted
                  [inr created_user_answer] [] sample_user_patch
                  created_user_answer sample_user [] eq_refl eq_refl)).
Defined.

Lemma null_argument_sends_nothing_witness :
  exec scripted (@linkAccount plain_env VUndefined) [inr VNull]
  = (Rejected TypeError, [], [inr VNull])
  ∧ exec scripted (@createSession plain_env VNull) [inr VNull]
    = (Rejected TypeError, [], [inr VNull]).
Proof.
  split.
  - exact (proj1 (proj2 (null_argument_sends_nothing (env := plain_env)
                           scripted [inr VNull] VUndefined eq_refl))).
  - exact (proj2 (proj2 (proj2 (null_argument_sends_nothing (env := plain_env)
                                  scripted [inr VNull] VNull eq_refl)))
                 eq_refl).
Defined.

Lemma getSessionAndUser_splits_record_witness :
  (exec scripted (@getSessionAndUser plain_env (VStr "tok"))
        [inr (VArr [VObj joined_session_record])]).1.1
  = Resolved
      (VObj {[ "user" := @format_from plain_env sample_user;
               "session" :=
                 VObj {[ "sessionToken" := VStr "tok";
                         "expires" := VDate "2030-01-01T00:00:00.000Z";
                         "userId" := VStr "u1" ]} ]}).
Proof.
  exact (f_equal (λ r, r.1.1)
           (proj1 (getSessionAndUser_splits_record (env := plain_env) scripted
                     [inr (VArr [VObj joined_session_record])] []
                     (VStr "tok") sample_user joined_session_record []
                     eq_refl eq_refl eq_refl))).
Defined.

Lemma getUserByAccount_returns_owner_witness :
  (exec scripted (@getUserByAccount plain_env sample_account_key)
        [inr (VArr [owned_account])]).1.1
  = Resolved (@format_from plain_env sample_user).
Proof.
  exact (proj1 (getUserByAccount_returns_owner (env := plain_env) scripted
                  [inr (VArr [owned_account])] [] sample_account_key
                  owned_account [] eq_refl)).
Defined.

Lemma getUserByEmail_null_when_not_found_witness :
  exec scripted (@getUserByEmail plain_env (VStr "nobody@example.org"))
       [inr (VArr [])]
  = (Resolved VNull,
     [(render (@fragments plain_env) getUserByEmail_doc,
       VObj {[ "email" := VStr "nobody@example.org" ]})],
     []).
Proof.
  exact (getUserByEmail_null_when_not_found (env := plain_env) scripted
           [inr (VArr [])] [] (VStr "nobody@example.org") eq_refl).
Defined.
